(** * Agent conversation and knowledge-gating engine of oa-backend

    A shallow embedding of the Go code that gates what a story character
    may reveal: the string helpers of the Go standard library the code
    relies on, the location-reveal detector
    ([handlers/location_detector.go]), the reveal validator and the
    tracking update ([handlers/message.go]), the turn pipeline of the
    detector iteration of [MessageHandler] ([unnamed/part_006]), the
    conversation-log writer ([db/agent_repository.go]) and the history
    reconstructor [LoadAgentFromDatabase] ([unnamed/part_009]).

    Go strings are byte strings; they are modelled as [string] (lists of
    8-bit [ascii] characters, i.e. bytes). *)

From Stdlib Require Import String Ascii ZArith.
From stdpp Require Import base list gmap strings.

(* ================================================================= *)
(** ** Go string helpers *)
(* ================================================================= *)

Module GoStrings.

Definition code (c : ascii) : nat := nat_of_ascii c.

(** [unicode.ToLower] on one byte: ASCII upper-case letters are mapped to
    lower case; other bytes are left alone (the model covers the ASCII
    behaviour of [strings.ToLower]). *)
Definition lowerByte (c : ascii) : ascii :=
  let n := code c in
  if (65 <=? n)%nat && (n <=? 90)%nat then ascii_of_nat (n + 32) else c.

(** strings.ToLower *)
Fixpoint ToLower (s : string) : string :=
  match s with
  | EmptyString => EmptyString
  | String c s' => String (lowerByte c) (ToLower s')
  end.

(** strings.HasPrefix s pre *)
Fixpoint HasPrefix (s pre : string) : bool :=
  match pre, s with
  | EmptyString, _ => true
  | String c p', String d s' => Ascii.eqb c d && HasPrefix s' p'
  | String _ _, EmptyString => false
  end.

(** strings.Contains s sub *)
Fixpoint Contains (s sub : string) : bool :=
  HasPrefix s sub ||
  match s with
  | EmptyString => false
  | String _ s' => Contains s' sub
  end.

(** position of the first occurrence of [sub] in [s] *)
Fixpoint index_opt (s sub : string) : option nat :=
  if HasPrefix s sub then Some 0%nat
  else match s with
       | EmptyString => None
       | String _ s' => option_map S (index_opt s' sub)
       end.

(** strings.Index: the first occurrence, or -1 *)
Definition Index (s sub : string) : Z :=
  match index_opt s sub with
  | Some n => Z.of_nat n
  | None => (-1)%Z
  end.

(** UTF-8 encodings of the code points [unicode.IsSpace] accepts. *)
Definition bytes (l : list nat) : list ascii := map ascii_of_nat l.

Definition spaceEncodings : list (list ascii) :=
  map bytes
    ([[9]; [10]; [11]; [12]; [13]; [32];
      [194; 133]; [194; 160]; [225; 154; 128]] ++
     map (fun k => [226; 128; 128 + k]) (seq 0 11) ++
     [[226; 128; 168]; [226; 128; 169]; [226; 128; 175];
      [226; 129; 159]; [227; 128; 128]])%nat.

Fixpoint list_prefixb (pre l : list ascii) : bool :=
  match pre, l with
  | [], _ => true
  | c :: p', d :: l' => Ascii.eqb c d && list_prefixb p' l'
  | _ :: _, [] => false
  end.

(** length of the white-space rune at the start of [l] (0 if none) *)
Definition spacePrefixLen (encs : list (list ascii)) (l : list ascii) : nat :=
  match List.find (fun e => list_prefixb e l) encs with
  | Some e => length e
  | None => 0%nat
  end.

(** strip leading runes whose encoding is in [encs]; [fuel] bounds the
    number of runes, [length l] always suffices *)
Fixpoint trimLeftFuel (encs : list (list ascii)) (fuel : nat) (l : list ascii)
  : list ascii :=
  match fuel with
  | O => l
  | S f =>
      match spacePrefixLen encs l with
      | O => l
      | n => trimLeftFuel encs f (drop n l)
      end
  end.

Definition trimLeftBytes (l : list ascii) : list ascii :=
  trimLeftFuel spaceEncodings (length l) l.

(** trailing runes: the reversed string starts with a reversed encoding *)
Definition trimRightBytes (l : list ascii) : list ascii :=
  rev (trimLeftFuel (map (@rev ascii) spaceEncodings) (length l) (rev l)).

(** strings.TrimSpace *)
Definition TrimSpace (s : string) : string :=
  string_of_list_ascii (trimRightBytes (trimLeftBytes (list_ascii_of_string s))).

End GoStrings.

(* ================================================================= *)
(** ** Story data ([models/story.go]) *)
(* ================================================================= *)

Module Location.
Record t := mk {
  ID : string;
  LocationName : string;
  VisualDescription : string;
  CharacterIDsInLocation : list string
}.
End Location.

Module Evidence.
Record t := mk {
  ID : string;
  Title : string;
  Description : string;
  VisualDescription : string;
  ImageURL : string
}.
End Evidence.

Module Character.
Record t := mk {
  ID : string;
  HoldsEvidence : list Evidence.t
}.
End Character.

Module Story.
Record t := mk {
  Locations : list Location.t;
  Characters : list Character.t
}.
End Story.

(* ================================================================= *)
(** ** Location-reveal detector ([handlers/location_detector.go]) *)
(* ================================================================= *)

Module Detector.
Import GoStrings.

Definition revealPhrases : list string :=
  ["meet me at"; "find me at"; "i'll be at"; "come to the"; "go to the";
   "head to the"; "it's at the"; "located at"; "you'll find it at";
   "i'll show you to"; "i'll take you to"; "follow me to"; "let's go to";
   "i can get you into"; "i have access to"; "i know a way into";
   "the key to the"; "the entrance to"]%string.

(** The action patterns all have the shape [\[A.*B.*\]]; RE2's [.] matches
    any character but a newline. [star_lit s x k]: [s] = [u ++ x ++ r] with
    [u] free of newlines and [k r]. *)
Definition newline : ascii := ascii_of_nat 10.

Fixpoint star_lit (s x : string) (k : string -> bool) : bool :=
  (HasPrefix s x && k (substring (String.length x) (String.length s) s)) ||
  match s with
  | EmptyString => false
  | String c s' => negb (Ascii.eqb c newline) && star_lit s' x k
  end.

(** an unanchored match of [\[A.*B.*\]] starting at the head of [s] *)
Definition match_here (a b s : string) : bool :=
  let open_a := String "[" a in
  HasPrefix s open_a &&
  star_lit (substring (String.length open_a) (String.length s) s) b
    (fun r => star_lit r "]" (fun _ => true)).

(** regexp.MatchString: a match starting at some position *)
Fixpoint MatchString (a b s : string) : bool :=
  match_here a b s ||
  match s with
  | EmptyString => false
  | String _ s' => MatchString a b s'
  end.

(** [\[hands over.*key.*\]], [\[gives.*access.*\]], ... as (A, B) pairs *)
Definition actionPatterns : list (string * string) :=
  [("hands over", "key"); ("gives", "access"); ("shows", "map");
   ("draws", "map"); ("writes", "address"); ("points", "direction");
   ("unlocks", "door")]%string.

Definition meetingIndicators : list string :=
  ["see you"; "find you"; "waiting"; "meet"; "rendezvous"; "gather"]%string.

Definition timeIndicators : list string :=
  ["tonight"; "tomorrow"; "later"; "soon"; "at midnight"; "at dawn";
   "in an hour"; "after dark"]%string.

Definition specificPatterns (nl : string) : list (list string) :=
  [[nl; "here's how to get there"]; [nl; "i'll let you in"];
   [nl; "you have my permission"]; [nl; "tell them i sent you"];
   [nl; "use this to get in"]; ["password"; nl]; ["code"; nl];
   [nl; "is open to you"]; [nl; "expecting you"]; ["arranged access"; nl]]%string.

(** withinProximity *)
Definition withinProximity (text str1 str2 : string) (maxDistance : Z) : bool :=
  let idx1 := Index text str1 in
  let idx2 := Index text str2 in
  if (idx1 =? -1)%Z || (idx2 =? -1)%Z then false
  else (Z.abs (idx2 - idx1) <=? maxDistance)%Z.

(** The four rules of the loop body for one lower-cased location name;
    each appends the location's ID at most once ([break]). *)
Definition revealRule (dialogueLower nl : string) : bool :=
  existsb (fun phrase =>
    Contains dialogueLower phrase && Contains dialogueLower nl &&
    withinProximity dialogueLower phrase nl 50) revealPhrases.

Definition actionRule (dialogueLower nl : string) : bool :=
  existsb (fun '(a, b) => MatchString a b dialogueLower && Contains dialogueLower nl)
    actionPatterns.

Definition meetingRule (dialogueLower nl : string) : bool :=
  existsb (fun meeting => existsb (fun time =>
    Contains dialogueLower meeting && Contains dialogueLower time &&
    Contains dialogueLower nl) timeIndicators) meetingIndicators.

Definition specificRule (dialogueLower nl : string) : bool :=
  existsb (fun pattern => forallb (Contains dialogueLower) pattern)
    (specificPatterns nl).

(** The IDs one location appends to [revealed], in the order of the
    blocks of the loop body: reveal phrases, action patterns, the
    meeting/time pattern, then the specific patterns. *)
Definition detectLocation (dialogueLower : string) (location : Location.t)
  : list string :=
  let nl := ToLower (Location.LocationName location) in
  let id := Location.ID location in
  (if revealRule dialogueLower nl then [id] else []) ++
  (if actionRule dialogueLower nl then [id] else []) ++
  (if meetingRule dialogueLower nl then [id] else []) ++
  (if specificRule dialogueLower nl then [id] else []).

(** uniqueStrings *)
Fixpoint uniqueStringsAux (seen : gmap string bool) (input : list string)
  : list string :=
  match input with
  | [] => []
  | s :: rest =>
      if default false (seen !! s) then uniqueStringsAux seen rest
      else s :: uniqueStringsAux (<[s := true]> seen) rest
  end.

Definition uniqueStrings (input : list string) : list string :=
  uniqueStringsAux ∅ input.

(** LocationRevealDetector built by NewLocationRevealDetector holds all
    the locations of the story. *)
Definition NewLocationRevealDetector (story : Story.t) : list Location.t :=
  Story.Locations story.

Definition DetectRevealedLocations (locations : list Location.t) (dialogue : string)
  : list string :=
  let dialogueLower := ToLower dialogue in
  uniqueStrings (List.concat (map (detectLocation dialogueLower) locations)).

(** Analysis helper: the fixed cue strings of the four rules. Each rule
    needs one of them besides the location name, so a dialogue holding none
    reveals no location whatever the story. *)
Definition specificCues : list string :=
  ["here's how to get there"; "i'll let you in"; "you have my permission";
   "tell them i sent you"; "use this to get in"; "password"; "code";
   "is open to you"; "expecting you"; "arranged access"]%string.

Definition noCue (dl : string) : bool :=
  forallb (fun p => negb (Contains dl p)) revealPhrases &&
  forallb (fun '(a, b) => negb (MatchString a b dl)) actionPatterns &&
  forallb (fun m => forallb (fun t => negb (Contains dl m && Contains dl t))
                      timeIndicators) meetingIndicators &&
  forallb (fun c => negb (Contains dl c)) specificCues.

End Detector.

(* ================================================================= *)
(** ** Reveal validation and tracking ([handlers/message.go]) *)
(* ================================================================= *)

Module Validate.

(** validateRevealedItems: [allowedMap] is filled from [allowed]; a
    missing key reads as [false]. *)
Definition allowedMapOf (allowed : list string) : gmap string bool :=
  foldl (fun m id => <[id := true]> m) ∅ allowed.

Fixpoint keepAllowed (allowedMap : gmap string bool) (revealed : list string)
  : list string :=
  match revealed with
  | [] => []
  | id :: rest =>
      if default false (allowedMap !! id) then id :: keepAllowed allowedMap rest
      else keepAllowed allowedMap rest
  end.

Definition validateRevealedItems (revealed allowed : list string) : list string :=
  keepAllowed (allowedMapOf allowed) revealed.

(** updateAgentTracking on one of the two maps *)
Definition track (m : gmap string bool) (ids : list string) : gmap string bool :=
  foldl (fun m id => <[id := true]> m) m ids.

End Validate.

(* ================================================================= *)
(** ** Agents, turns and the conversation log *)
(* ================================================================= *)

(** genai.Content built by genai.NewContentFromText: a role ("user" or
    "model") and one text part. *)
Module Content.
Record t := mk { Role : string; Text : string }.
End Content.

Definition RoleUser : string := "user".
Definition RoleModel : string := "model".

(** agent.Agent ([unnamed/part_013]); the two revealed-ID maps are Go
    [map[string]bool], a key is a member when it reads [true]. *)
Module Agent.
Record t := mk {
  ID : string;
  History : list Content.t;
  StoryID : string;
  CharacterID : string;
  CharacterName : string;
  Personality : string;
  HoldsEvidenceIDs : list string;
  KnowsLocationIDs : list string;
  RevealedEvidenceIDs : gmap string bool;
  RevealedLocationIDs : gmap string bool;
  LoadedFromDB : bool
}.

Definition setHistory (a : t) (h : list Content.t) : t :=
  mk (ID a) h (StoryID a) (CharacterID a) (CharacterName a) (Personality a)
     (HoldsEvidenceIDs a) (KnowsLocationIDs a) (RevealedEvidenceIDs a)
     (RevealedLocationIDs a) (LoadedFromDB a).

Definition setRevealed (a : t) (ev loc : gmap string bool) : t :=
  mk (ID a) (History a) (StoryID a) (CharacterID a) (CharacterName a)
     (Personality a) (HoldsEvidenceIDs a) (KnowsLocationIDs a) ev loc
     (LoadedFromDB a).

(** the set view of a revealed map *)
Definition member (m : gmap string bool) (id : string) : Prop :=
  m !! id = Some true.
End Agent.

(** updateAgentTracking *)
Definition updateAgentTracking (a : Agent.t) (evidences locations : list string)
  : Agent.t :=
  Agent.setRevealed a (Validate.track (Agent.RevealedEvidenceIDs a) evidences)
    (Validate.track (Agent.RevealedLocationIDs a) locations).

(** SpawnAgentWithCharacter ([unnamed/part_009]); the random agent ID is
    an argument. The instruction turn is only kept in memory. *)
Definition SpawnAgentWithCharacter (agentID systemPrompt storyContext storyID
    characterID characterName personality : string)
    (evidenceIDs locationIDs : list string) : Agent.t :=
  let fullSystemPrompt :=
    String.append systemPrompt
      (String.append (String (ascii_of_nat 10) (String (ascii_of_nat 10) EmptyString))
         (String.append "[STORY CONTEXT FOR REFERENCE]:"
            (String (ascii_of_nat 10) storyContext))) in
  Agent.mk agentID [Content.mk RoleModel fullSystemPrompt] storyID characterID
    characterName personality evidenceIDs locationIDs ∅ ∅ false.

(** models.ConversationDocument as written by
    SaveConversationMessageWithVersions (the timestamp is left out). *)
Module ConversationDocument.
Record t := mk {
  AgentID : string;
  Role : string;
  Content : string;
  ClientContent : string;
  Index : nat;
  RevealedEvidences : list string;
  RevealedLocations : list string
}.
End ConversationDocument.

(** models.AgentDocument; a [nil] Go map is [None]. *)
Module AgentDocument.
Record t := mk {
  StoryID : string;
  CharacterID : string;
  CharacterName : string;
  Personality : string;
  HoldsEvidenceIDs : list string;
  KnowsLocationIDs : list string;
  RevealedEvidenceIDs : option (gmap string bool);
  RevealedLocationIDs : option (gmap string bool)
}.
End AgentDocument.

(* ================================================================= *)
(** ** The conversation-log writer ([db/agent_repository.go]) *)
(* ================================================================= *)

Module Repo.
Import GoStrings.

(** The store is the list of inserted documents. [ObjectIDFromHex] is
    given as a validity test on the agent ID, and [inserts] are the
    outcomes of successive [InsertOne] attempts. *)
Record Store := mk { conversations : list ConversationDocument.t }.

Definition GoError := string.

(** the retry loop [for i := 0; i < 3; i++] around InsertOne *)
Fixpoint insertRetry (attempts : nat) (inserts : list bool)
    (doc : ConversationDocument.t) (st : Store) : option GoError * Store :=
  match attempts with
  | O => (Some "insert failed"%string, st)
  | S k =>
      match inserts with
      | true :: _ => (None, mk (conversations st ++ [doc]))
      | false :: rest => insertRetry k rest doc st
      | [] => insertRetry k [] doc st
      end
  end.

Definition SaveConversationMessageWithVersions (ObjectIDFromHex : string -> bool)
    (inserts : list bool) (st : Store) (agentID fullContent clientContent role : string)
    (index : nat) (revealedEvidences revealedlocations : list string)
    : option GoError * Store :=
  if String.eqb (TrimSpace fullContent) "" && String.eqb (TrimSpace clientContent) ""
  then (None, st)
  else if negb (ObjectIDFromHex agentID) then (Some "invalid ObjectID"%string, st)
  else insertRetry 3 inserts
         (ConversationDocument.mk agentID role fullContent clientContent index
            revealedEvidences revealedlocations) st.

End Repo.

(* ================================================================= *)
(** ** The turn pipeline: MessageHandler of [unnamed/part_006] *)
(* ================================================================= *)

Module MessageRequest.
Record t := mk {
  AgentID : string;
  Message : string;
  PresentedEvidence : list string;
  LocationID : string
}.
End MessageRequest.

Module MessageResponse.
Record t := mk {
  Reply : string;
  RevealedEvidences : list string;
  RevealedLocations : list string
}.
End MessageResponse.

Module Pipeline.
Import GoStrings.

Definition nl : string := String (ascii_of_nat 10) EmptyString.
Definition cat (l : list string) : string := fold_right String.append EmptyString l.

(** What the collaborators of one request return: the agent store
    lookup (agent.GetAgentByID), the story document read from the
    database (None when the story ID does not parse or the read fails),
    the creation of the Gemini client, the first GenerateContent call
    (None: API error) and, for retryWithJSONFormat, its client creation
    and its GenerateContent call. *)
Record Env := mkEnv {
  GetAgentByID : option Agent.t;
  StoryDB : option Story.t;
  ClientOK : bool;
  Generate : option string;
  RetryClientOK : bool;
  RetryGenerate : option string
}.

(** One asynchronous call of db.SaveConversationMessageWithVersions. *)
Record SaveCall := mkSave {
  fullContent : string;
  clientContent : string;
  role : string;
  index : nat;
  revealedEvidences : list string;
  revealedLocations : list string
}.

Inductive Outcome :=
| HttpError (status : Z) (msg : string)
| Encoded (resp : MessageResponse.t).

(** The handler's effect: the response written, the agent object as left
    in the registry (the Go code mutates it in place), the save calls
    dispatched, and the number of GenerateContent calls made. *)
Record Result := mkResult {
  outcome : Outcome;
  agentAfter : option Agent.t;
  saves : list SaveCall;
  generatorCalls : nat
}.

(** fetchLocationDetails *)
Definition fetchLocationDetails (story : option Story.t) (locationID : string)
  : option (option Location.t) :=
  match story with
  | None => None
  | Some st => Some (List.find (fun l => String.eqb (Location.ID l) locationID)
                       (Story.Locations st))
  end.

(** fetchEvidenceDetails *)
Definition fetchEvidenceDetails (story : option Story.t) (evidenceIDs : list string)
  : option (list Evidence.t) :=
  match story with
  | None => None
  | Some st =>
      let evidenceMap := Validate.allowedMapOf evidenceIDs in
      Some (List.concat (map (fun ch =>
              List.filter (fun ev => default false (evidenceMap !! Evidence.ID ev))
                (Character.HoldsEvidence ch)) (Story.Characters st)))
  end.

Definition locationPrefix (loc : Location.t) (userMessage : string) : string :=
  cat ["[CURRENT LOCATION: "; Location.LocationName loc; " - ";
       Location.VisualDescription loc; "]"; nl; nl; userMessage]%string.

Definition rule40 (c : ascii) : string := cat (repeat (String c EmptyString) 40).

Definition evidenceBlock (ev : Evidence.t) : string :=
  cat (["EVIDENCE: "; Evidence.Title ev; nl;
        "Description: "; Evidence.Description ev; nl;
        "Visual: "; Evidence.VisualDescription ev; nl]%string ++
       (if String.eqb (Evidence.ImageURL ev) "" then []
        else ["Image: "; Evidence.ImageURL ev; nl]%string) ++
       [rule40 "-"; nl]%string).

Definition evidenceSuffix (evs : list Evidence.t) : string :=
  cat ([nl; nl; rule40 "="; nl;
        "[USER IS PRESENTING THE FOLLOWING EVIDENCE TO YOU]:"; nl;
        rule40 "="; nl]%string ++ map evidenceBlock evs).

(** the augmentation steps: the user message after the location and the
    evidence context are added, or the 500 error raised by a fetch *)
Definition augment (story : option Story.t) (req : MessageRequest.t)
  : string + string :=
  let m0 := MessageRequest.Message req in
  let m1 :=
    if String.eqb (MessageRequest.LocationID req) "" then inl m0
    else match fetchLocationDetails story (MessageRequest.LocationID req) with
         | None => inr "Failed to fetch location details"%string
         | Some None => inl m0
         | Some (Some loc) => inl (locationPrefix loc m0)
         end in
  match m1 with
  | inr e => inr e
  | inl m1 =>
      match MessageRequest.PresentedEvidence req with
      | [] => inl m1
      | _ :: _ =>
          match fetchEvidenceDetails story (MessageRequest.PresentedEvidence req) with
          | None => inr "Failed to fetch evidence details"%string
          | Some [] => inl m1
          | Some evs => inl (String.append m1 (evidenceSuffix evs))
          end
      end
  end.

(** generateFallbackResponse *)
Definition nervousLine : string :=
  "I-I'm sorry, I'm having trouble understanding... Could you repeat that?".
Definition arrogantLine : string :=
  "Speak clearly. I don't have time for your mumbling.".
Definition professionalLine : string :=
  "I apologize, could you please rephrase your question?".
Definition neutralLine : string :=
  "I'm having trouble understanding. Could you rephrase that?".

Definition generateFallbackResponse (a : Agent.t) : string :=
  let personality := ToLower (Agent.Personality a) in
  if Contains personality "nervous" then nervousLine
  else if Contains personality "arrogant" then arrogantLine
  else if Contains personality "professional" then professionalLine
  else neutralLine.

Definition emptyReplyLine : string :=
  "I apologize, but I couldn't formulate a proper response. Could you please rephrase your question?".

Section Handler.

(** encoding/json decoding of a model output into a MessageResponse *)
Variable json_unmarshal : string -> option MessageResponse.t.
(** extractClientContent ([handlers/content_utils.go], regular-expression
    rewriting of the context markers) *)
Variable extractClientContent : string -> string -> string.
(** the value part_006 passes as full content of the model turn
    ([naturalResponse], bound outside that file) *)
Variable naturalResponse : string.

(** parsing, retrying and falling back: the response and the number of
    GenerateContent calls made by the retry *)
Definition parseWithRetry (env : Env) (a : Agent.t) (raw : string)
  : MessageResponse.t * nat :=
  match json_unmarshal raw with
  | Some r => (r, 0%nat)
  | None =>
      let fallback := MessageResponse.mk (generateFallbackResponse a) [] [] in
      if negb (RetryClientOK env) then (fallback, 0%nat)
      else match RetryGenerate env with
           | None => (fallback, 1%nat)
           | Some text =>
               match json_unmarshal text with
               | Some r => (r, 1%nat)
               | None => (fallback, 1%nat)
               end
           end
  end.

Definition MessageHandler (env : Env) (req : MessageRequest.t) : Result :=
  match GetAgentByID env with
  | None => mkResult (HttpError 404 "Agent not found") None [] 0
  | Some a =>
  if String.eqb (Agent.StoryID a) "" then
    mkResult (HttpError 500 "Agent configuration invalid") (Some a) [] 0
  else
  match augment (StoryDB env) req with
  | inr e => mkResult (HttpError 500 e) (Some a) [] 0
  | inl userMessage =>
  if String.eqb (TrimSpace userMessage) "" then
    mkResult (HttpError 400 "Message cannot be empty") (Some a) [] 0
  else
  let a1 := Agent.setHistory a
              (Agent.History a ++ [Content.mk RoleUser userMessage]) in
  let userSave := mkSave userMessage (extractClientContent userMessage "user")
                    "user" (length (Agent.History a1) - 1) [] [] in
  if negb (ClientOK env) then
    mkResult (HttpError 500 "Failed to create client") (Some a1) [userSave] 0
  else
  match Generate env with
  | None => mkResult (HttpError 500 "Failed to get response") (Some a1) [userSave] 1
  | Some raw =>
  let '(aiResponse, retryCalls) := parseWithRetry env a1 raw in
  let revE := Validate.validateRevealedItems
                (MessageResponse.RevealedEvidences aiResponse) (Agent.HoldsEvidenceIDs a1) in
  let revL := match StoryDB env with
              | Some story => Detector.DetectRevealedLocations
                                (Detector.NewLocationRevealDetector story)
                                (MessageResponse.Reply aiResponse)
              | None => []
              end in
  let a2 := updateAgentTracking a1 revE revL in
  let reply := if String.eqb (TrimSpace (MessageResponse.Reply aiResponse)) ""
               then emptyReplyLine else MessageResponse.Reply aiResponse in
  let a3 := Agent.setHistory a2 (Agent.History a2 ++ [Content.mk RoleModel reply]) in
  let modelSave := mkSave naturalResponse reply "model"
                     (length (Agent.History a3) - 1) revE revL in
  mkResult (Encoded (MessageResponse.mk reply revE revL)) (Some a3)
    [userSave; modelSave] (1 + retryCalls)
  end
  end
  end.

(** A run of successive requests against one agent object: each request
    finds the agent left by the previous one in the registry. *)
Definition withAgent (env : Env) (a : Agent.t) : Env :=
  mkEnv (Some a) (StoryDB env) (ClientOK env) (Generate env)
    (RetryClientOK env) (RetryGenerate env).

Fixpoint run (a : Agent.t) (steps : list (Env * MessageRequest.t))
  : Agent.t * list SaveCall :=
  match steps with
  | [] => (a, [])
  | (env, req) :: rest =>
      let r := MessageHandler (withAgent env a) req in
      let a' := default a (agentAfter r) in
      let '(a'', ss) := run a' rest in
      (a'', saves r ++ ss)
  end.

End Handler.

End Pipeline.

(* ================================================================= *)
(** ** History reconstruction: LoadAgentFromDatabase of [unnamed/part_009] *)
(* ================================================================= *)

Module Reconstruct.
Import GoStrings.

Definition nl : string := String (ascii_of_nat 10) EmptyString.
Definition quote : string := String (ascii_of_nat 34) EmptyString.

(** the instruction synthesized for recovered agents *)
Definition systemMessage (characterName personality : string) : string :=
  Pipeline.cat
    ["You are "; characterName; " with personality: "; personality; "."; nl; nl;
     "IMPORTANT: Only provide spoken dialogue - what your character says out loud. Do NOT include action descriptions like ";
     quote; "I sigh"; quote;
     " or narration. Simply speak as your character would speak."; nl; nl;
     "Continue the conversation naturally based on your character. Stay in character and respond as your character would."; nl; nl;
     "[Note: This agent was loaded from database after server restart. Continue conversation based on available history.]"]%string.

(** the conversion loop: blank documents are skipped, a "user" role
    stays user, any other role becomes model *)
Definition toContent (conv : ConversationDocument.t) : Content.t :=
  Content.mk (if String.eqb (ConversationDocument.Role conv) "user" then RoleUser else RoleModel)
    (ConversationDocument.Content conv).

Definition notBlank (conv : ConversationDocument.t) : bool :=
  negb (String.eqb (TrimSpace (ConversationDocument.Content conv)) "").

Definition loadHistory (convs : list ConversationDocument.t) : list Content.t :=
  map toContent (List.filter notBlank convs).

(** [doc]: the agents-collection read (None: bad ID or not found);
    [convs]: the conversations read, sorted by index (None: the Find or
    the decoding failed). *)
Definition LoadAgentFromDatabase (agentID : string) (doc : option AgentDocument.t)
    (convs : option (list ConversationDocument.t)) : option Agent.t :=
  match doc with
  | None => None
  | Some d =>
  let agent := Agent.mk agentID [] (AgentDocument.StoryID d) (AgentDocument.CharacterID d)
                 (AgentDocument.CharacterName d) (AgentDocument.Personality d)
                 (AgentDocument.HoldsEvidenceIDs d) (AgentDocument.KnowsLocationIDs d)
                 (default ∅ (AgentDocument.RevealedEvidenceIDs d))
                 (default ∅ (AgentDocument.RevealedLocationIDs d)) true in
  match convs with
  | None => Some agent
  | Some conversations =>
  let history := loadHistory conversations in
  let hasSystemMessage :=
    match conversations with
    | firstMsg :: _ =>
        negb (Nat.eqb (length history) 0) &&
        String.eqb (ConversationDocument.Role firstMsg) "model" &&
        Nat.eqb (ConversationDocument.Index firstMsg) 0
    | [] => false
    end in
  if negb hasSystemMessage || Nat.eqb (length history) 0 then
    Some (Agent.setHistory agent
            (Content.mk RoleModel (systemMessage (Agent.CharacterName agent)
                                     (Agent.Personality agent)) :: history))
  else Some (Agent.setHistory agent history)
  end
  end.

End Reconstruct.

(* ================================================================= *)
(** ** A concrete scenario: one story, one spawned agent, one turn *)
(* ================================================================= *)

Module Scenario.

Definition secretLab : Location.t := Location.mk "loc_1" "Secret Lab" "" [].
Definition story : Story.t := Story.mk [secretLab] [].

(** a character that holds "ev_1" and knows no location *)
Definition spawned : Agent.t :=
  SpawnAgentWithCharacter "agent_1" "You are Bob." "A mystery." "story_1" "char_1"
    "Bob" "calm" ["ev_1"] [].

Definition env : Pipeline.Env :=
  Pipeline.mkEnv (Some spawned) (Some story) true (Some "raw") true None.
Definition req : MessageRequest.t :=
  MessageRequest.mk "agent_1" "Where should we meet?" [] "".

(** a generator output decoding to a reply that names the secret lab *)
Definition reply : MessageResponse.t :=
  MessageResponse.mk "Meet me at the secret lab tonight." ["ev_1"] [].
Definition json_unmarshal (raw : string) : option MessageResponse.t := Some reply.
Definition json_fails (raw : string) : option MessageResponse.t := None.
Definition extractClientContent (s role : string) : string := s.
Definition naturalResponse : string := "Meet me at the secret lab tonight.".

Definition turn : Pipeline.Result :=
  Pipeline.MessageHandler json_unmarshal extractClientContent naturalResponse env req.

(** requests whose message is a single space *)
Definition blankReq : MessageRequest.t := MessageRequest.mk "agent_1" " " [] "".
Definition blankAtLabReq : MessageRequest.t := MessageRequest.mk "agent_1" " " [] "loc_1".

(** the stored agent document and a two-turn log with indices 1 and 2 *)
Definition doc : AgentDocument.t :=
  AgentDocument.mk "story_1" "char_1" "Bob" "calm" ["ev_1"] [] None None.
Definition log : list ConversationDocument.t :=
  [ConversationDocument.mk "agent_1" "user" "Where should we meet?"
     "Where should we meet?" 1 [] [];
   ConversationDocument.mk "agent_1" "model" "Meet me at the secret lab tonight."
     "Meet me at the secret lab tonight." 2 [] ["loc_1"]].

End Scenario.

(* ================================================================= *)
(** ** Client-safe content ([handlers/content_utils.go]) *)
(* ================================================================= *)

Module ClientContent.
Import GoStrings.

Definition locationTagOpen : string := "[CURRENT LOCATION:".
Definition evidenceMarker : string :=
  "[USER IS PRESENTING THE FOLLOWING EVIDENCE TO YOU]:".

(** RE2's [\s]: tab, newline, form feed, carriage return and space *)
Definition perlSpace (c : ascii) : bool :=
  let n := nat_of_ascii c in
  (n =? 9)%nat || (n =? 10)%nat || (n =? 12)%nat || (n =? 13)%nat || (n =? 32)%nat.

(** [locationRegex.ReplaceAllString(content, "")] for
    [\[CURRENT LOCATION:[^\]]*\]\s*], leftmost-first, one byte at a time.
    [Scan]: looking for the next match; a match starts where the tag
    opener is and a [']'] follows somewhere ([[^\]]*] cannot pass a
    [']'], so the match ends at the first one). [InTag]: dropping the tag
    up to and including that [']']. [AfterTag]: dropping the white space
    [\s*] takes greedily, then scanning again from the first other byte. *)
Inductive scanMode := Scan | InTag | AfterTag.

Fixpoint removeLocationTags (mode : scanMode) (s : string) : string :=
  match s with
  | EmptyString => EmptyString
  | String c s' =>
      let scanHere :=
        if HasPrefix s locationTagOpen && Contains s' "]" then removeLocationTags InTag s'
        else String c (removeLocationTags Scan s') in
      match mode with
      | Scan => scanHere
      | InTag => if Ascii.eqb c "]" then removeLocationTags AfterTag s'
                 else removeLocationTags InTag s'
      | AfterTag => if perlSpace c then removeLocationTags AfterTag s' else scanHere
      end
  end.

Fixpoint dropNewlines (s : string) : string :=
  match s with
  | EmptyString => EmptyString
  | String c s' => if Ascii.eqb c (ascii_of_nat 10) then dropNewlines s' else s
  end.

(** [evidenceRegex.ReplaceAllString(content, "")] for
    [\n*\[USER IS PRESENTING THE FOLLOWING EVIDENCE TO YOU\]:[\s\S]*$]:
    the leftmost position from which newlines and then the marker
    follow; from there to the end is removed. *)
Fixpoint removeEvidenceSection (s : string) : string :=
  if HasPrefix (dropNewlines s) evidenceMarker then EmptyString
  else match s with
       | EmptyString => EmptyString
       | String c s' => String c (removeEvidenceSection s')
       end.

Definition systemIndicators : list string :=
  ["You are"; "Your personality is"; "IMPORTANT: Only provide spoken dialogue";
   "Continue the conversation naturally based on your character";
   "[Note: This agent was loaded from database";
   "Stay in character and respond as your character would"]%string.

(** isSystemPrompt: two or more indicators occur *)
Definition isSystemPrompt (content : string) : bool :=
  (2 <=? length (List.filter (Contains content) systemIndicators))%nat.

(** extractClientContent *)
Definition extractClientContent (fullContent role : string) : string :=
  if String.eqb role "model" && isSystemPrompt fullContent then EmptyString
  else if String.eqb role "model" then fullContent
  else TrimSpace (removeEvidenceSection (removeLocationTags Scan fullContent)).

(** Analysis helper: the white space the location regex drops after a tag. *)
Fixpoint dropPerlSpace (s : string) : string :=
  match s with
  | EmptyString => EmptyString
  | String c s' => if perlSpace c then dropPerlSpace s' else s
  end.

End ClientContent.

(* ================================================================= *)
(** ** Name maps and ID filters ([handlers/message.go]) *)
(* ================================================================= *)

Module NameMaps.
Import GoStrings.

(** buildEvidenceNameMap: lower-cased title to ID, over the characters'
    evidence in order; a later title overwrites an earlier one. *)
Definition buildEvidenceNameMap (story : Story.t) : gmap string string :=
  foldl (fun m ch =>
           foldl (fun m ev => <[ToLower (Evidence.Title ev) := Evidence.ID ev]> m)
             m (Character.HoldsEvidence ch))
    ∅ (Story.Characters story).

(** buildLocationNameMap *)
Definition buildLocationNameMap (story : Story.t) : gmap string string :=
  foldl (fun m loc => <[ToLower (Location.LocationName loc) := Location.ID loc]> m)
    ∅ (Story.Locations story).

(** mapRevealedNamesToIDs *)
Fixpoint mapRevealedNamesToIDs (names : list string) (nameMap : gmap string string)
  : list string :=
  match names with
  | [] => []
  | name :: rest =>
      match nameMap !! ToLower (TrimSpace name) with
      | Some id => id :: mapRevealedNamesToIDs rest nameMap
      | None => mapRevealedNamesToIDs rest nameMap
      end
  end.

Module MentionedItem.
Record t := mk { Name : string; ID : string; Context : string }.
End MentionedItem.

(** findUnavailableLocations; a missing key of [knownMap] reads [false] *)
Definition findUnavailableLocations (mentioned : list MentionedItem.t)
    (knownLocationIDs : list string) : list MentionedItem.t :=
  let knownMap := Validate.allowedMapOf knownLocationIDs in
  List.filter (fun item => negb (default false (knownMap !! MentionedItem.ID item)))
    mentioned.

(** findUnavailableEvidence *)
Definition findUnavailableEvidence (mentioned : list MentionedItem.t)
    (heldEvidenceIDs : list string) : list MentionedItem.t :=
  let heldMap := Validate.allowedMapOf heldEvidenceIDs in
  List.filter (fun item => negb (default false (heldMap !! MentionedItem.ID item)))
    mentioned.

(** fetchLocationDetailsForIDs; None: the story ID does not parse or the
    story read fails *)
Definition fetchLocationDetailsForIDs (story : option Story.t) (locationIDs : list string)
  : option (list Location.t) :=
  match story with
  | None => None
  | Some st =>
      let locationMap := Validate.allowedMapOf locationIDs in
      Some (List.filter (fun loc => default false (locationMap !! Location.ID loc))
              (Story.Locations st))
  end.

End NameMaps.

(* ================================================================= *)
(** ** Cooperation level ([handlers/spawn.go]) *)
(* ================================================================= *)

Module Cooperation.
Import GoStrings.

Definition highKeywords : list string :=
  ["naive"; "trusting"; "innocent child"; "eager to please"]%string.
Definition mediumKeywords : list string :=
  ["helpful"; "friendly"; "honest"; "open"]%string.
Definition lowKeywords : list string :=
  ["suspicious"; "secretive"; "hostile"; "criminal"; "paranoid"; "guilty";
   "guarded"; "defensive"; "private"; "reserved"; "cautious"; "military";
   "professional"; "formal"]%string.

(** determineCooperationLevel *)
Definition determineCooperationLevel (personality : string) : string :=
  let lowerPersonality := ToLower personality in
  if existsb (Contains lowerPersonality) highKeywords then "HIGH"
  else if existsb (Contains lowerPersonality) mediumKeywords then "MEDIUM"
  else if existsb (Contains lowerPersonality) lowKeywords then "LOW"
  else "LOW".

End Cooperation.

(** SaveConversationMessage: the same content as full and client version,
    no reveal lists *)
Definition SaveConversationMessage (ObjectIDFromHex : string -> bool) (inserts : list bool)
    (st : Repo.Store) (agentID content role : string) (index : nat)
    : option Repo.GoError * Repo.Store :=
  Repo.SaveConversationMessageWithVersions ObjectIDFromHex inserts st agentID content content
    role index [] [].

(* ================================================================= *)
(** ** The agent registry ([unnamed/part_009]) *)
(* ================================================================= *)

Module Registry.

(** AgentRegistry: agent ID to agent *)
Definition t := gmap string Agent.t.

(** GetAgentByID: the registry first; on a miss LoadAgentFromDatabase,
    given the agents-collection read [docs] and the conversations read
    [convs] for an ID, and the loaded agent is put in the registry *)
Definition GetAgentByID (docs : string -> option AgentDocument.t)
    (convs : string -> option (list ConversationDocument.t)) (reg : t) (id : string)
  : option Agent.t * t :=
  match reg !! id with
  | Some a => (Some a, reg)
  | None =>
      match Reconstruct.LoadAgentFromDatabase id (docs id) (convs id) with
      | None => (None, reg)
      | Some loaded => (Some loaded, <[id := loaded]> reg)
      end
  end.

(** SpawnAgentWithCharacterAndID *)
Definition SpawnAgentWithCharacterAndID (reg : t) (agentID systemPrompt storyContext
    storyID characterID characterName personality : string)
    (evidenceIDs locationIDs : list string) : t :=
  <[agentID := SpawnAgentWithCharacter agentID systemPrompt storyContext storyID
                 characterID characterName personality evidenceIDs locationIDs]> reg.

(** DeleteAgent *)
Definition DeleteAgent (reg : t) (id : string) : t := delete id reg.

End Registry.

(* ================================================================= *)
(** * Theorems *)
(* ================================================================= *)

(** ** Maps filled with [true] *)

Lemma lookup_track (l : list string) (m : gmap string bool) (x : string) :
  Validate.track m l !! x = if decide (x ∈ l) then Some true else m !! x.
Proof.
  revert m. induction l as [|y l IH]; intros m.
  - simpl. done.
  - change (Validate.track m (y :: l)) with (Validate.track (<[y:=true]> m) l).
    rewrite IH, lookup_insert.
    destruct (decide (x ∈ l)), (decide (y = x)), (decide (x ∈ y :: l));
      subst; set_solver.
Qed.

Lemma track_present (m : gmap string bool) (ids : list string) :
  Forall (fun id => m !! id = Some true) ids -> Validate.track m ids = m.
Proof.
  induction 1 as [|y l Hy _ IH]; simpl; [done|].
  rewrite insert_id by done. exact IH.
Qed.

Lemma keepAllowed_filter (m : gmap string bool) (c : list string) :
  Validate.keepAllowed m c = List.filter (fun id => default false (m !! id)) c.
Proof. induction c as [|x c IH]; simpl; [done|]. by rewrite IH. Qed.

(** validateRevealedItems keeps exactly the candidates that are allowed. *)
Lemma validate_filter (c a : list string) :
  Validate.validateRevealedItems c a = List.filter (fun id => bool_decide (id ∈ a)) c.
Proof.
  unfold Validate.validateRevealedItems. rewrite keepAllowed_filter.
  apply List.filter_ext. intros id.
  change (Validate.allowedMapOf a) with (Validate.track ∅ a).
  rewrite lookup_track, lookup_empty.
  case_decide; simpl; [by rewrite bool_decide_true | by rewrite bool_decide_false].
Qed.

Lemma filter_sublist_of {A} (f : A -> bool) (l : list A) :
  List.filter f l `sublist_of` l.
Proof.
  induction l as [|x l IH]; simpl; [constructor|].
  destruct (f x); constructor; exact IH.
Qed.

Lemma filter_twice {A} (f : A -> bool) (l : list A) :
  List.filter f (List.filter f l) = List.filter f l.
Proof.
  induction l as [|x l IH]; simpl; [done|].
  destruct (f x) eqn:Hx; simpl; [rewrite Hx|]; by rewrite IH.
Qed.

Lemma elem_of_filter_bool {A} (f : A -> bool) (l : list A) (x : A) :
  x ∈ List.filter f l <-> x ∈ l /\ f x = true.
Proof. rewrite !list_elem_of_In. apply filter_In. Qed.

(** ** C2: the reveal validator *)

(** C2 (as stated, refuted): the validator does not deduplicate. With
    candidates ["ev_1"; "ev_1"] and allowed ["ev_1"] the output is
    ["ev_1"; "ev_1"], which has a repeated element. *)
Lemma C2_validate_keeps_duplicates :
  Validate.validateRevealedItems ["ev_1"; "ev_1"]%string ["ev_1"]%string
    = ["ev_1"; "ev_1"]%string /\
  ~ NoDup (Validate.validateRevealedItems ["ev_1"; "ev_1"]%string ["ev_1"]%string).
Proof.
  split; [reflexivity|]. vm_compute. intros H. inversion H as [|x l Hnot _]; subst.
  apply Hnot. left.
Qed.

(** C2 (amended): every element of validateRevealedItems(candidates,
    allowed) is in allowed, the output is a sub-sequence of the candidates
    (same relative order), and it holds exactly the candidates that are
    allowed, repeated candidates included. *)
Theorem C2_validate_subset_ordered (c a : list string) :
  (forall x, x ∈ Validate.validateRevealedItems c a -> x ∈ a) /\
  Validate.validateRevealedItems c a `sublist_of` c /\
  Validate.validateRevealedItems c a = List.filter (fun id => bool_decide (id ∈ a)) c.
Proof.
  rewrite validate_filter. split; [|split].
  - intros x Hx. apply elem_of_filter_bool in Hx as [_ Hx].
    by apply bool_decide_eq_true in Hx.
  - apply filter_sublist_of.
  - reflexivity.
Qed.

(** ** C8: idempotence *)

(** C8: validating twice against the same allowed list gives the output of
    validating once, and updateAgentTracking with IDs already in the
    revealed sets leaves the agent unchanged. *)
Theorem C8_validate_idempotent_tracking_noop :
  (forall c a : list string,
     Validate.validateRevealedItems (Validate.validateRevealedItems c a) a
     = Validate.validateRevealedItems c a) /\
  (forall (ag : Agent.t) (evs locs : list string),
     Forall (Agent.member (Agent.RevealedEvidenceIDs ag)) evs ->
     Forall (Agent.member (Agent.RevealedLocationIDs ag)) locs ->
     updateAgentTracking ag evs locs = ag).
Proof.
  split.
  - intros c a. rewrite !validate_filter. apply filter_twice.
  - intros ag evs locs He Hl. unfold updateAgentTracking.
    rewrite !track_present by done. by destruct ag.
Qed.

(** ** C9: blank turns are not logged *)

(** C9: when the full and the client content both trim to the empty
    string, SaveConversationMessageWithVersions inserts nothing and
    returns no error. *)
Theorem C9_blank_message_not_saved (ObjectIDFromHex : string -> bool)
    (inserts : list bool) (st : Repo.Store) (agentID full client role : string)
    (index : nat) (revE revL : list string) :
  GoStrings.TrimSpace full = EmptyString ->
  GoStrings.TrimSpace client = EmptyString ->
  Repo.SaveConversationMessageWithVersions ObjectIDFromHex inserts st agentID
    full client role index revE revL = (None, st).
Proof.
  intros Hf Hc. unfold Repo.SaveConversationMessageWithVersions.
  by rewrite Hf, Hc.
Qed.

(** ** The location-reveal detector *)

Section DetectorFacts.
Import GoStrings Detector.

Lemma existsb_all_false {A} (f : A -> bool) (l : list A) :
  (forall x, In x l -> f x = false) -> existsb f l = false.
Proof.
  induction l as [|y l IH]; simpl; intros H; [done|].
  rewrite (H y (or_introl eq_refl)). apply IH. intros x Hx. apply H. by right.
Qed.

Lemma forallb_false_at (f : string -> bool) (c : string) (pat : list string) :
  In c pat -> f c = false -> forallb f pat = false.
Proof.
  intros Hin Hf. apply not_true_iff_false. intros Hall.
  rewrite forallb_forall in Hall. rewrite (Hall c Hin) in Hf. discriminate.
Qed.

Lemma negb_true_false (b : bool) : negb b = true -> b = false.
Proof. by destruct b. Qed.

(** A dialogue without any cue reveals no location, whatever its name. *)
Lemma rules_noCue (dl nl : string) :
  noCue dl = true ->
  revealRule dl nl = false /\ actionRule dl nl = false /\
  meetingRule dl nl = false /\ specificRule dl nl = false.
Proof.
  unfold noCue. rewrite !andb_true_iff, !forallb_forall.
  intros [[[Hp Ha] Hm] Hc]. split; [|split; [|split]].
  - apply existsb_all_false. intros phrase Hin.
    by rewrite (negb_true_false _ (Hp phrase Hin)).
  - apply existsb_all_false. intros [a b] Hin.
    by rewrite (negb_true_false _ (Ha (a, b) Hin)).
  - apply existsb_all_false. intros m Hin. apply existsb_all_false. intros t Ht.
    specialize (Hm m Hin). rewrite forallb_forall in Hm.
    by rewrite (negb_true_false _ (Hm t Ht)).
  - apply existsb_all_false. intros pat Hin.
    assert (Hcue : forall c, In c specificCues -> Contains dl c = false)
      by (intros c Hc'; exact (negb_true_false _ (Hc c Hc'))).
    simpl in Hin.
    repeat destruct Hin as [Hin|Hin]; subst; try contradiction;
      match goal with
      | |- forallb _ [?x; ?y] = false =>
          first [ apply (forallb_false_at _ x); [by left | apply Hcue; simpl; tauto]
                | apply (forallb_false_at _ y); [right; by left | apply Hcue; simpl; tauto] ]
      end.
Qed.

Lemma detectLocation_noCue (dl : string) (loc : Location.t) :
  noCue dl = true -> detectLocation dl loc = [].
Proof.
  intros H. unfold detectLocation.
  destruct (rules_noCue dl (ToLower (Location.LocationName loc)) H) as (-> & -> & -> & ->).
  reflexivity.
Qed.

Lemma Detect_noCue (locs : list Location.t) (d : string) :
  noCue (ToLower d) = true -> DetectRevealedLocations locs d = [].
Proof.
  intros H. unfold DetectRevealedLocations.
  induction locs as [|l locs IH]; [reflexivity|].
  simpl. rewrite (detectLocation_noCue _ l H). exact IH.
Qed.

Lemma uniqueStringsAux_in (input : list string) :
  forall (seen : gmap string bool) x, In x input ->
  In x (uniqueStringsAux seen input) \/ default false (seen !! x) = true.
Proof.
  induction input as [|s rest IH]; intros seen x Hin; [destruct Hin|].
  simpl. destruct (default false (seen !! s)) eqn:Hs.
  - destruct Hin as [<-|Hin]; [by right | by apply IH].
  - destruct (decide (s = x)) as [<-|Hne]; [left; by left|].
    destruct Hin as [->|Hin]; [done|].
    destruct (IH (<[s:=true]> seen) x Hin) as [H|H]; [left; by right|].
    rewrite lookup_insert_ne in H by done. by right.
Qed.

Lemma uniqueStrings_in (input : list string) (x : string) :
  In x input -> In x (uniqueStrings input).
Proof.
  intros Hin. destruct (uniqueStringsAux_in input ∅ x Hin) as [H|H]; [exact H|].
  rewrite lookup_empty in H. discriminate.
Qed.

Lemma uniqueStringsAux_sub (input : list string) :
  forall (seen : gmap string bool) x, In x (uniqueStringsAux seen input) -> In x input.
Proof.
  induction input as [|s rest IH]; intros seen x H; [destruct H|].
  simpl in H. destruct (default false (seen !! s)).
  - right. exact (IH _ _ H).
  - destruct H as [<-|H]; [by left | right; exact (IH _ _ H)].
Qed.

(** Every ID the detector returns is the ID of one of its locations. *)
Lemma Detect_ids (locs : list Location.t) (d x : string) :
  In x (DetectRevealedLocations locs d) -> In x (map Location.ID locs).
Proof.
  unfold DetectRevealedLocations, uniqueStrings. intros H.
  apply uniqueStringsAux_sub in H.
  apply in_concat in H as [ids [Hids Hx]].
  apply in_map_iff in Hids as [l [<- Hl]].
  apply in_map_iff. exists l. split; [|exact Hl].
  unfold detectLocation in Hx.
  repeat (apply in_app_or in Hx as [Hx|Hx]);
    repeat match goal with
           | Hx : In x (if ?b then _ else _) |- _ => destruct b
           end; simpl in Hx; intuition.
Qed.

End DetectorFacts.

(** C4: the detector meets the test contract. For every story whose
    locations include one named "Secret Lab", "Meet me at the secret lab
    tonight." reveals that location's ID; for every story, the bare mention
    of the engine room and the denial about the secret lab reveal
    nothing. *)
Theorem C4_detector_test_contract :
  (forall (locs : list Location.t) (loc : Location.t),
     In loc locs -> Location.LocationName loc = "Secret Lab"%string ->
     In (Location.ID loc)
       (Detector.DetectRevealedLocations locs "Meet me at the secret lab tonight.")) /\
  (forall locs : list Location.t,
     Detector.DetectRevealedLocations locs
       "I heard something about the engine room, but I don't know where it is." = []) /\
  (forall locs : list Location.t,
     Detector.DetectRevealedLocations locs "I can't tell you where the secret lab is." = []).
Proof.
  split; [|split].
  - intros locs loc Hin Hname. apply uniqueStrings_in.
    apply in_concat. exists (Detector.detectLocation
      (GoStrings.ToLower "Meet me at the secret lab tonight.") loc).
    split; [by apply in_map|].
    destruct loc as [id name vd cs]. simpl in Hname. subst name.
    vm_compute. left. reflexivity.
  - intros locs. apply Detect_noCue. vm_compute. reflexivity.
  - intros locs. apply Detect_noCue. vm_compute. reflexivity.
Qed.

(** ** TrimSpace *)

Section TrimFacts.
Import GoStrings.

Lemma list_prefixb_split (e l : list ascii) :
  list_prefixb e l = true -> l = e ++ drop (length e) l.
Proof.
  revert l. induction e as [|c e IH]; intros l H; [done|].
  destruct l as [|d l]; [discriminate|]. simpl in H.
  apply andb_true_iff in H as [Hc H]. apply Ascii.eqb_eq in Hc. subst d.
  simpl. f_equal. by apply IH.
Qed.

(** trimming the left strips a prefix made of bytes of the encodings *)
Lemma trimLeftFuel_split (encs : list (list ascii)) (fuel : nat) :
  forall l, exists p, l = p ++ trimLeftFuel encs fuel l /\
                      Forall (fun c => In c (List.concat encs)) p.
Proof.
  induction fuel as [|f IH]; intros l; [exists []; done|].
  simpl. unfold spacePrefixLen.
  destruct (List.find (fun e => list_prefixb e l) encs) as [e|] eqn:Hf;
    [|exists []; done].
  apply find_some in Hf as [Hin Hpre].
  destruct (length e) as [|n] eqn:Hlen; [exists []; done|].
  destruct (IH (drop (S n) l)) as [p [Hp Hall]].
  exists (e ++ p). split.
  - rewrite <- app_assoc, <- Hp, <- Hlen. by apply list_prefixb_split.
  - apply Forall_app. split; [|exact Hall].
    apply List.Forall_forall. intros c Hc. apply in_concat. exists e; split; [exact Hin | exact Hc].
Qed.

Lemma string_of_list_ascii_nil (x : list ascii) :
  string_of_list_ascii x = EmptyString -> x = [].
Proof. by destruct x. Qed.

Lemma list_ascii_of_string_append (a b : string) :
  list_ascii_of_string (String.append a b) = list_ascii_of_string a ++ list_ascii_of_string b.
Proof. induction a as [|c a IH]; simpl; [done|]. by rewrite IH. Qed.

(** a string that trims to the empty string is made of white-space bytes *)
Lemma TrimSpace_empty_all_space (s : string) :
  TrimSpace s = EmptyString ->
  Forall (fun c => In c (List.concat spaceEncodings)) (list_ascii_of_string s).
Proof.
  unfold TrimSpace, trimRightBytes, trimLeftBytes. intros H.
  apply string_of_list_ascii_nil in H.
  set (L := list_ascii_of_string s) in *.
  set (T := trimLeftFuel spaceEncodings (length L) L) in *.
  destruct (trimLeftFuel_split spaceEncodings (length L) L) as [p1 [E1 F1]].
  fold T in E1.
  destruct (trimLeftFuel_split (map (@rev ascii) spaceEncodings) (length T) (rev T))
    as [p2 [E2 F2]].
  apply (f_equal (@rev ascii)) in H. rewrite rev_involutive in H.
  change (rev (@nil ascii)) with (@nil ascii) in H.
  rewrite H, app_nil_r in E2.
  rewrite E1. apply Forall_app. split; [exact F1|].
  rewrite <- (rev_involutive T), E2. apply Forall_rev.
  apply List.Forall_forall. intros c Hc. rewrite List.Forall_forall in F2.
  apply F2, in_concat in Hc as [e [He Hce]].
  apply in_map_iff in He as [e' [<- He']].
  apply in_concat. exists e'. split; [exact He'|]. by apply in_rev.
Qed.

Lemma TrimSpace_nonblank (s : string) (c : ascii) :
  In c (list_ascii_of_string s) ->
  existsb (Ascii.eqb c) (List.concat spaceEncodings) = false ->
  TrimSpace s <> EmptyString.
Proof.
  intros Hin Hc Htrim. apply TrimSpace_empty_all_space in Htrim.
  rewrite List.Forall_forall in Htrim. apply Htrim in Hin.
  assert (existsb (Ascii.eqb c) (List.concat spaceEncodings) = true) as Ht
    by (apply existsb_exists; exists c; split; [exact Hin | apply Ascii.eqb_refl]).
  congruence.
Qed.

End TrimFacts.

(** ** The handler: blank guard, fallback *)

Section HandlerFacts.
Import GoStrings Pipeline.

Variable json_unmarshal : string -> option MessageResponse.t.
Variable extractClientContent : string -> string -> string.
Variable naturalResponse : string.

Abbreviation handler := (MessageHandler json_unmarshal extractClientContent naturalResponse).

Lemma eqb_neq_false (s t : string) : s <> t -> String.eqb s t = false.
Proof. apply String.eqb_neq. Qed.

(** past the guard, the handler never answers 400 and has appended the
    user turn *)
Lemma handler_past_guard (env : Env) (req : MessageRequest.t) (a : Agent.t)
    (um : string) :
  GetAgentByID env = Some a -> Agent.StoryID a <> EmptyString ->
  augment (StoryDB env) req = inl um -> TrimSpace um <> EmptyString ->
  (forall msg, outcome (handler env req) <> HttpError 400 msg) /\
  (exists a' rest, agentAfter (handler env req) = Some a' /\
     Agent.History a' = Agent.History a ++ Content.mk RoleUser um :: rest) /\
  (ClientOK env = true -> (1 <= generatorCalls (handler env req))%nat).
Proof.
  intros Ha Hs Haug Ht. unfold MessageHandler.
  rewrite Ha, (eqb_neq_false _ _ Hs), Haug, (eqb_neq_false _ _ Ht).
  destruct (ClientOK env); simpl.
  2:{ split; [intros msg; discriminate|]. split; [|discriminate].
      eexists _, []. split; [reflexivity|]. reflexivity. }
  destruct (Generate env) as [raw|]; simpl.
  2:{ split; [intros msg; discriminate|]. split; [|intros; lia].
      eexists _, []. split; [reflexivity|]. reflexivity. }
  destruct (parseWithRetry json_unmarshal env _ raw) as [resp k]; simpl.
  split; [intros msg; discriminate|]. split; [|intros; lia].
  eexists _, [_]. split; [reflexivity|]. simpl. rewrite <- app_assoc. reflexivity.
Qed.

Lemma HasPrefix_lower (s t : string) :
  HasPrefix s t = true -> HasPrefix (ToLower s) (ToLower t) = true.
Proof.
  revert s. induction t as [|c t IH]; intros s H; [by destruct (ToLower s)|].
  destruct s as [|d s]; [discriminate|]. simpl in *.
  apply andb_true_iff in H as [Hc H]. apply Ascii.eqb_eq in Hc. subst d.
  rewrite Ascii.eqb_refl. simpl. by apply IH.
Qed.

Lemma Contains_lower (s t : string) :
  Contains s t = true -> Contains (ToLower s) (ToLower t) = true.
Proof.
  induction s as [|c s IH]; intros H; simpl in *.
  - rewrite orb_false_r in *. apply (HasPrefix_lower EmptyString t H).
  - apply orb_true_iff in H as [H|H].
    + apply orb_true_iff. left. exact (HasPrefix_lower (String c s) t H).
    + apply orb_true_iff. right. by apply IH.
Qed.

Lemma fallback_line_cases (a : Agent.t) :
  generateFallbackResponse a = nervousLine \/ generateFallbackResponse a = arrogantLine \/
  generateFallbackResponse a = professionalLine \/ generateFallbackResponse a = neutralLine.
Proof.
  unfold generateFallbackResponse.
  destruct (Contains _ "nervous"); [by left|].
  destruct (Contains _ "arrogant"); [by right; left|].
  destruct (Contains _ "professional"); [by right; right; left|].
  by right; right; right.
Qed.

Lemma fallback_line_facts (a : Agent.t) :
  Detector.noCue (ToLower (generateFallbackResponse a)) = true /\
  String.eqb (TrimSpace (generateFallbackResponse a)) EmptyString = false.
Proof.
  destruct (fallback_line_cases a) as [-> | [-> | [-> | ->]]]; vm_compute; split; reflexivity.
Qed.

End HandlerFacts.

(** C7: once the agent is found and the context is added, a user message
    that trims to the empty string is rejected with 400 "Message cannot be
    empty": the agent is left as it was (no user turn), nothing is saved and
    the generator is not called. A message that does not trim to the empty
    string never gets a 400 answer. *)
Theorem C7_blank_message_rejected (json_unmarshal : string -> option MessageResponse.t)
    (extractClientContent : string -> string -> string) (naturalResponse : string)
    (env : Pipeline.Env) (req : MessageRequest.t) (a : Agent.t) (um : string) :
  Pipeline.GetAgentByID env = Some a -> Agent.StoryID a <> EmptyString ->
  Pipeline.augment (Pipeline.StoryDB env) req = inl um ->
  (GoStrings.TrimSpace um = EmptyString ->
     Pipeline.MessageHandler json_unmarshal extractClientContent naturalResponse env req =
     Pipeline.mkResult (Pipeline.HttpError 400 "Message cannot be empty") (Some a) [] 0) /\
  (GoStrings.TrimSpace um <> EmptyString ->
     forall msg, Pipeline.outcome
       (Pipeline.MessageHandler json_unmarshal extractClientContent naturalResponse env req)
       <> Pipeline.HttpError 400 msg).
Proof.
  intros Ha Hs Haug. split.
  - intros Ht. unfold Pipeline.MessageHandler.
    rewrite Ha, (eqb_neq_false _ _ Hs), Haug, Ht. reflexivity.
  - intros Ht. exact (proj1 (handler_past_guard json_unmarshal extractClientContent
                               naturalResponse env req a um Ha Hs Haug Ht)).
Qed.

(** C10: the blank guard looks at the augmented message. When the story
    is readable, a whitespace-only message with a location ID that resolves
    to a story location, or with presented evidence IDs that resolve to
    evidence items, becomes non-blank; the request is not rejected with 400,
    the user turn is appended and, when the client is created, the generator
    is called. *)
Theorem C10_context_makes_message_nonblank
    (json_unmarshal : string -> option MessageResponse.t)
    (extractClientContent : string -> string -> string) (naturalResponse : string)
    (env : Pipeline.Env) (req : MessageRequest.t) (a : Agent.t) (st : Story.t) :
  Pipeline.GetAgentByID env = Some a -> Agent.StoryID a <> EmptyString ->
  Pipeline.StoryDB env = Some st ->
  GoStrings.TrimSpace (MessageRequest.Message req) = EmptyString ->
  ((MessageRequest.LocationID req <> EmptyString /\
    exists loc, Pipeline.fetchLocationDetails (Some st) (MessageRequest.LocationID req)
                = Some (Some loc)) \/
   (MessageRequest.PresentedEvidence req <> [] /\
    exists ev evs, Pipeline.fetchEvidenceDetails (Some st) (MessageRequest.PresentedEvidence req)
                   = Some (ev :: evs))) ->
  exists um,
    Pipeline.augment (Some st) req = inl um /\ GoStrings.TrimSpace um <> EmptyString /\
    (forall msg, Pipeline.outcome
       (Pipeline.MessageHandler json_unmarshal extractClientContent naturalResponse env req)
       <> Pipeline.HttpError 400 msg) /\
    (exists a' rest, Pipeline.agentAfter
       (Pipeline.MessageHandler json_unmarshal extractClientContent naturalResponse env req)
       = Some a' /\ Agent.History a' = Agent.History a ++ Content.mk RoleUser um :: rest) /\
    (Pipeline.ClientOK env = true -> (1 <= Pipeline.generatorCalls
       (Pipeline.MessageHandler json_unmarshal extractClientContent naturalResponse env req))%nat).
Proof.
  intros Ha Hs Hst _ Hctx.
  assert (Hum : exists um, Pipeline.augment (Some st) req = inl um /\
                           GoStrings.TrimSpace um <> EmptyString).
  { unfold Pipeline.augment.
    destruct Hctx as [[Hl [loc Hloc]] | [Hne [ev [evs Hev]]]].
    - rewrite (eqb_neq_false _ _ Hl), Hloc.
      assert (Hbr : In "["%char (list_ascii_of_string
                      (Pipeline.locationPrefix loc (MessageRequest.Message req))))
        by (simpl; left; reflexivity).
      destruct (MessageRequest.PresentedEvidence req) as [|p ps].
      + eexists; split; [reflexivity|].
        apply (TrimSpace_nonblank _ "["%char Hbr). vm_compute. reflexivity.
      + destruct (Pipeline.fetchEvidenceDetails (Some st) (p :: ps)) as [[|e es]|] eqn:He.
        * eexists; split; [reflexivity|].
          apply (TrimSpace_nonblank _ "["%char Hbr). vm_compute. reflexivity.
        * eexists; split; [reflexivity|].
          apply (TrimSpace_nonblank _ "["%char); [|vm_compute; reflexivity].
          rewrite list_ascii_of_string_append. apply in_or_app. left. exact Hbr.
        * discriminate He.
    - destruct (MessageRequest.PresentedEvidence req) as [|p ps]; [contradiction|].
      rewrite Hev.
      assert (Heq : forall m1, In "="%char (list_ascii_of_string
                      (String.append m1 (Pipeline.evidenceSuffix (ev :: evs))))).
      { intros m1. rewrite list_ascii_of_string_append. apply in_or_app. right.
        simpl. right. right. left. reflexivity. }
      destruct (String.eqb (MessageRequest.LocationID req) EmptyString).
      + eexists; split; [reflexivity|].
        apply (TrimSpace_nonblank _ "="%char (Heq _)). vm_compute. reflexivity.
      + destruct (Pipeline.fetchLocationDetails (Some st) (MessageRequest.LocationID req))
          as [[loc|]|] eqn:Hl; [| |discriminate Hl];
          (eexists; split; [reflexivity|];
           apply (TrimSpace_nonblank _ "="%char (Heq _)); vm_compute; reflexivity). }
  destruct Hum as [um [Haug Ht]]. exists um. split; [exact Haug|]. split; [exact Ht|].
  rewrite <- Hst in Haug.
  exact (handler_past_guard json_unmarshal extractClientContent naturalResponse
           env req a um Ha Hs Haug Ht).
Qed.

(** C5: when the generator output does not decode as a MessageResponse and
    the single retry does not give a decodable one either (no retry client,
    no retry output, or an undecodable retry output), the handler answers
    with a successful encoded response whose reply is the fallback line of
    the agent's personality and whose reveal lists are empty. The line is
    chosen case-insensitively, "nervous" first, then "arrogant", then
    "professional", and the neutral line otherwise. *)
Theorem C5_parse_failure_fallback (json_unmarshal : string -> option MessageResponse.t)
    (extractClientContent : string -> string -> string) (naturalResponse : string)
    (env : Pipeline.Env) (req : MessageRequest.t) (a : Agent.t) (um raw : string) :
  Pipeline.GetAgentByID env = Some a -> Agent.StoryID a <> EmptyString ->
  Pipeline.augment (Pipeline.StoryDB env) req = inl um ->
  GoStrings.TrimSpace um <> EmptyString ->
  Pipeline.ClientOK env = true -> Pipeline.Generate env = Some raw ->
  json_unmarshal raw = None ->
  (Pipeline.RetryClientOK env = false \/ Pipeline.RetryGenerate env = None \/
   exists text, Pipeline.RetryGenerate env = Some text /\ json_unmarshal text = None) ->
  Pipeline.outcome
    (Pipeline.MessageHandler json_unmarshal extractClientContent naturalResponse env req)
  = Pipeline.Encoded (MessageResponse.mk (Pipeline.generateFallbackResponse a) [] []) /\
  (GoStrings.Contains (Agent.Personality a) "nervous" = true ->
     Pipeline.generateFallbackResponse a = Pipeline.nervousLine) /\
  (GoStrings.Contains (GoStrings.ToLower (Agent.Personality a)) "nervous" = true ->
     Pipeline.generateFallbackResponse a = Pipeline.nervousLine) /\
  (GoStrings.Contains (GoStrings.ToLower (Agent.Personality a)) "nervous" = false ->
   GoStrings.Contains (GoStrings.ToLower (Agent.Personality a)) "arrogant" = true ->
     Pipeline.generateFallbackResponse a = Pipeline.arrogantLine) /\
  (GoStrings.Contains (GoStrings.ToLower (Agent.Personality a)) "nervous" = false ->
   GoStrings.Contains (GoStrings.ToLower (Agent.Personality a)) "arrogant" = false ->
   GoStrings.Contains (GoStrings.ToLower (Agent.Personality a)) "professional" = true ->
     Pipeline.generateFallbackResponse a = Pipeline.professionalLine) /\
  (GoStrings.Contains (GoStrings.ToLower (Agent.Personality a)) "nervous" = false ->
   GoStrings.Contains (GoStrings.ToLower (Agent.Personality a)) "arrogant" = false ->
   GoStrings.Contains (GoStrings.ToLower (Agent.Personality a)) "professional" = false ->
     Pipeline.generateFallbackResponse a = Pipeline.neutralLine).
Proof.
  intros Ha Hs Haug Ht Hc Hg Hj Hr.
  unfold Pipeline.generateFallbackResponse at 2 3 4 5 6.
  split; [| split; [| split; [| split; [| split]]]].
  - unfold Pipeline.MessageHandler. cbv zeta.
    rewrite Ha, (eqb_neq_false _ _ Hs), Haug, (eqb_neq_false _ _ Ht), Hc, Hg.
    assert (Hp : exists k, Pipeline.parseWithRetry json_unmarshal env
              (Agent.setHistory a (Agent.History a ++ [Content.mk RoleUser um])) raw
              = (MessageResponse.mk (Pipeline.generateFallbackResponse a) [] [], k)).
    { unfold Pipeline.parseWithRetry. rewrite Hj.
      destruct Hr as [Hr | [Hr | [t [Hr Ht2]]]].
      - rewrite Hr. eexists; reflexivity.
      - destruct (Pipeline.RetryClientOK env); rewrite Hr; eexists; reflexivity.
      - destruct (Pipeline.RetryClientOK env); rewrite Hr, ?Ht2; eexists; reflexivity. }
    destruct Hp as [k Hp]. simpl negb. cbv iota. rewrite Hp.
    cbn [MessageResponse.Reply MessageResponse.RevealedEvidences Pipeline.outcome].
    destruct (fallback_line_facts a) as [Hcue Hnb].
    rewrite Hnb. destruct (Pipeline.StoryDB env).
    + rewrite (Detect_noCue _ _ Hcue). reflexivity.
    + reflexivity.
  - intros H. apply Contains_lower in H. change (GoStrings.ToLower "nervous") with "nervous"%string in H.
    rewrite H. reflexivity.
  - intros H. rewrite H. reflexivity.
  - intros H1 H2. rewrite H1, H2. reflexivity.
  - intros H1 H2 H3. rewrite H1, H2, H3. reflexivity.
  - intros H1 H2 H3. rewrite H1, H2, H3. reflexivity.
Qed.

(** ** Turns of the handler: what a turn leaves behind *)

Section RunFacts.
Import GoStrings Pipeline.
Variable json_unmarshal : string -> option MessageResponse.t.
Variable extractClientContent : string -> string -> string.
Variable naturalResponse : string.

Abbreviation handle := (MessageHandler json_unmarshal extractClientContent naturalResponse).
Abbreviation runs := (run json_unmarshal extractClientContent naturalResponse).

Ltac same_agent :=
  simpl; repeat split; first [reflexivity | left; split; reflexivity].

(** the agent after a turn: same held and known IDs, and the revealed sets
    either untouched or grown by the validated evidence IDs and the
    detector output *)
Lemma handler_agent_shape (env : Env) (req : MessageRequest.t) (a a' : Agent.t) :
  GetAgentByID env = Some a -> agentAfter (handle env req) = Some a' ->
  Agent.HoldsEvidenceIDs a' = Agent.HoldsEvidenceIDs a /\
  Agent.KnowsLocationIDs a' = Agent.KnowsLocationIDs a /\
  ((Agent.RevealedEvidenceIDs a' = Agent.RevealedEvidenceIDs a /\
    Agent.RevealedLocationIDs a' = Agent.RevealedLocationIDs a) \/
   exists c d,
     Agent.RevealedEvidenceIDs a' =
       Validate.track (Agent.RevealedEvidenceIDs a)
         (Validate.validateRevealedItems c (Agent.HoldsEvidenceIDs a)) /\
     Agent.RevealedLocationIDs a' =
       Validate.track (Agent.RevealedLocationIDs a)
         (match StoryDB env with
          | Some st => Detector.DetectRevealedLocations (Detector.NewLocationRevealDetector st) d
          | None => []
          end)).
Proof.
  intros Ha. unfold MessageHandler. rewrite Ha.
  destruct (String.eqb (Agent.StoryID a) ""); [simpl; intros [= <-]; same_agent|].
  destruct (augment (StoryDB env) req) as [um|e]; [|simpl; intros [= <-]; same_agent].
  destruct (String.eqb (TrimSpace um) ""); [simpl; intros [= <-]; same_agent|].
  destruct (ClientOK env); [|simpl; intros [= <-]; same_agent].
  destruct (Generate env) as [raw|]; [|simpl; intros [= <-]; same_agent].
  simpl negb. cbv iota zeta.
  destruct (parseWithRetry json_unmarshal env _ raw) as [resp k].
  simpl. intros [= <-]. simpl. split; [reflexivity|]. split; [reflexivity|].
  right. exists (MessageResponse.RevealedEvidences resp), (MessageResponse.Reply resp).
  split; reflexivity.
Qed.

(** the history after a turn grows by the saved turns, whose indices are
    the consecutive positions they take in it *)
Lemma handler_indices (env : Env) (req : MessageRequest.t) (a : Agent.t) :
  GetAgentByID env = Some a ->
  map index (saves (handle env req))
    = seq (length (Agent.History a)) (length (saves (handle env req))) /\
  length (Agent.History (default a (agentAfter (handle env req))))
    = (length (Agent.History a) + length (saves (handle env req)))%nat.
Proof.
  intros Ha. unfold MessageHandler. rewrite Ha.
  destruct (String.eqb (Agent.StoryID a) ""); [simpl; split; [reflexivity | lia]|].
  destruct (augment (StoryDB env) req) as [um|e]; [|simpl; split; [reflexivity | lia]].
  destruct (String.eqb (TrimSpace um) ""); [simpl; split; [reflexivity | lia]|].
  destruct (ClientOK env);
    [|simpl; rewrite length_app; simpl; split; [f_equal; f_equal; lia | lia]].
  destruct (Generate env) as [raw|];
    [|simpl; rewrite length_app; simpl; split; [f_equal; f_equal; lia | lia]].
  simpl negb. cbv iota zeta.
  destruct (parseWithRetry json_unmarshal env _ raw) as [resp k].
  simpl. rewrite !length_app. simpl. split; [|lia].
  f_equal; [lia|]. f_equal. f_equal. lia.
Qed.

Lemma run_cons (a : Agent.t) (env : Env) (req : MessageRequest.t)
    (rest : list (Env * MessageRequest.t)) :
  runs a ((env, req) :: rest) =
  (fst (runs (default a (agentAfter (handle (withAgent env a) req))) rest),
   saves (handle (withAgent env a) req) ++
   snd (runs (default a (agentAfter (handle (withAgent env a) req))) rest)).
Proof. simpl. by destruct (runs _ rest). Qed.

(** over a run, the saved indices are consecutive from the length of the
    history the run starts from *)
Lemma run_indices (steps : list (Env * MessageRequest.t)) :
  forall a : Agent.t,
  map index (snd (runs a steps))
    = seq (length (Agent.History a)) (length (snd (runs a steps))) /\
  length (Agent.History (fst (runs a steps)))
    = (length (Agent.History a) + length (snd (runs a steps)))%nat.
Proof.
  induction steps as [|[env req] rest IH]; intros a; [simpl; split; [reflexivity | lia]|].
  rewrite run_cons. simpl fst. simpl snd.
  destruct (handler_indices (withAgent env a) req a eq_refl) as [Hi Hl].
  destruct (IH (default a (agentAfter (handle (withAgent env a) req)))) as [Hi' Hl'].
  rewrite map_app, Hi, Hi', Hl, length_app, seq_app. split; [reflexivity | lia].
Qed.

Lemma member_track (m : gmap string bool) (l : list string) (x : string) :
  Agent.member (Validate.track m l) x -> x ∈ l \/ Agent.member m x.
Proof.
  unfold Agent.member. rewrite lookup_track. case_decide; [by left | by right].
Qed.

Lemma validate_allowed (c a : list string) (x : string) :
  x ∈ Validate.validateRevealedItems c a -> x ∈ a.
Proof.
  rewrite validate_filter, elem_of_filter_bool. intros [_ H].
  by apply bool_decide_eq_true in H.
Qed.

(** one turn keeps revealed evidence inside the held evidence, and adds
    to the revealed locations only IDs of the story's locations *)
Lemma handler_reveals (env : Env) (req : MessageRequest.t) (a : Agent.t) :
  GetAgentByID env = Some a ->
  let a' := default a (agentAfter (handle env req)) in
  Agent.HoldsEvidenceIDs a' = Agent.HoldsEvidenceIDs a /\
  Agent.KnowsLocationIDs a' = Agent.KnowsLocationIDs a /\
  ((forall x, Agent.member (Agent.RevealedEvidenceIDs a) x -> x ∈ Agent.HoldsEvidenceIDs a) ->
   forall x, Agent.member (Agent.RevealedEvidenceIDs a') x -> x ∈ Agent.HoldsEvidenceIDs a') /\
  (forall x, Agent.member (Agent.RevealedLocationIDs a') x ->
   Agent.member (Agent.RevealedLocationIDs a) x \/
   exists st, StoryDB env = Some st /\ In x (map Location.ID (Story.Locations st))).
Proof.
  intros Ha a'. subst a'.
  destruct (agentAfter (handle env req)) as [a'|] eqn:E; simpl;
    [|split; [reflexivity|]; split; [reflexivity|]; split; [tauto | by left]].
  destruct (handler_agent_shape env req a a' Ha E) as (Hh & Hk & Hrev).
  rewrite Hh, Hk. split; [reflexivity|]. split; [reflexivity|].
  destruct Hrev as [[He Hl] | (c & d & He & Hl)]; rewrite He, Hl.
  - split; [tauto | by left].
  - split.
    + intros Hinv x Hx. apply member_track in Hx as [Hx|Hx];
        [exact (validate_allowed _ _ _ Hx) | exact (Hinv x Hx)].
    + intros x Hx. apply member_track in Hx as [Hx|Hx]; [|by left].
      right. destruct (StoryDB env) as [st|]; [|by apply not_elem_of_nil in Hx].
      exists st. split; [reflexivity|].
      apply list_elem_of_In in Hx. exact (Detect_ids _ _ _ Hx).
Qed.

(** the same over a run of turns *)
Lemma run_reveals (steps : list (Env * MessageRequest.t)) :
  forall a : Agent.t,
  let a' := fst (runs a steps) in
  Agent.HoldsEvidenceIDs a' = Agent.HoldsEvidenceIDs a /\
  Agent.KnowsLocationIDs a' = Agent.KnowsLocationIDs a /\
  ((forall x, Agent.member (Agent.RevealedEvidenceIDs a) x -> x ∈ Agent.HoldsEvidenceIDs a) ->
   forall x, Agent.member (Agent.RevealedEvidenceIDs a') x -> x ∈ Agent.HoldsEvidenceIDs a') /\
  (forall x, Agent.member (Agent.RevealedLocationIDs a') x ->
   Agent.member (Agent.RevealedLocationIDs a) x \/
   exists env req st, In (env, req) steps /\ StoryDB env = Some st /\
     In x (map Location.ID (Story.Locations st))).
Proof.
  induction steps as [|[env req] rest IH]; intros a a'; subst a'.
  - simpl. split; [reflexivity|]. split; [reflexivity|]. split; [tauto | by left].
  - rewrite run_cons. simpl fst.
    destruct (handler_reveals (withAgent env a) req a eq_refl) as (Hh & Hk & He & Hl).
    destruct (IH (default a (agentAfter (handle (withAgent env a) req))))
      as (Hh' & Hk' & He' & Hl').
    split; [congruence|]. split; [congruence|]. split.
    + intros Hinv. apply He'. exact (He Hinv).
    + intros x Hx. destruct (Hl' x Hx) as [Hx'|(env' & req' & st & Hin & Hst & Hid)].
      * destruct (Hl x Hx') as [H|(st & Hst & Hid)]; [by left|].
        right. exists env, req, st. split; [by left|]. split; [exact Hst | exact Hid].
      * right. exists env', req', st. split; [by right|]. split; [exact Hst | exact Hid].
Qed.

End RunFacts.

(** ** C1: the revealed sets *)

(** C1 (as stated, refuted): the part_006 turn takes the location
    detector output as the reveals without checking KnowsLocationIDs. The
    spawned agent knows no location, the story has "loc_1" named "Secret
    Lab", and the reply "Meet me at the secret lab tonight." leaves "loc_1"
    in the revealed locations although it is not a known location. *)
Lemma C1_detector_reveals_unknown_location :
  exists a', Pipeline.agentAfter Scenario.turn = Some a' /\
    Agent.member (Agent.RevealedLocationIDs a') "loc_1" /\
    ~ ("loc_1"%string ∈ Agent.KnowsLocationIDs a').
Proof.
  exists (default Scenario.spawned (Pipeline.agentAfter Scenario.turn)).
  split; [vm_compute; reflexivity|]. split; [vm_compute; reflexivity|].
  assert (Hk : Agent.KnowsLocationIDs
                 (default Scenario.spawned (Pipeline.agentAfter Scenario.turn)) = [])
    by (vm_compute; reflexivity).
  rewrite Hk. apply not_elem_of_nil.
Qed.

(** C1 (amended): a spawned agent has empty revealed sets; over any run of
    turns the held and known IDs do not change, revealed evidence stays
    inside the held evidence, and every revealed location is either one
    revealed before the run or the ID of a location of the story of one of
    the turns (not necessarily a known location); in particular, starting
    from a spawn, revealed evidence is held evidence and revealed locations
    are story location IDs. Reconstruction copies the held and known IDs
    and the revealed maps of the stored document, so the invariant holds
    after it exactly when it holds for the stored document. *)
Theorem C1_reveal_invariants_amended :
  (forall agentID systemPrompt storyContext storyID characterID characterName personality
          (evidenceIDs locationIDs : list string),
     let a := SpawnAgentWithCharacter agentID systemPrompt storyContext storyID characterID
                characterName personality evidenceIDs locationIDs in
     Agent.RevealedEvidenceIDs a = ∅ /\ Agent.RevealedLocationIDs a = ∅) /\
  (forall json_unmarshal extractClientContent naturalResponse agentID systemPrompt
          storyContext storyID characterID characterName personality
          (evidenceIDs locationIDs : list string) steps,
     let a := fst (Pipeline.run json_unmarshal extractClientContent naturalResponse
                     (SpawnAgentWithCharacter agentID systemPrompt storyContext storyID
                        characterID characterName personality evidenceIDs locationIDs)
                     steps) in
     (forall x, Agent.member (Agent.RevealedEvidenceIDs a) x -> x ∈ evidenceIDs) /\
     (forall x, Agent.member (Agent.RevealedLocationIDs a) x ->
        exists env req st, In (env, req) steps /\ Pipeline.StoryDB env = Some st /\
          In x (map Location.ID (Story.Locations st)))) /\
  (forall json_unmarshal extractClientContent naturalResponse (a : Agent.t) steps,
     let a' := fst (Pipeline.run json_unmarshal extractClientContent naturalResponse a steps) in
     Agent.HoldsEvidenceIDs a' = Agent.HoldsEvidenceIDs a /\
     Agent.KnowsLocationIDs a' = Agent.KnowsLocationIDs a /\
     ((forall x, Agent.member (Agent.RevealedEvidenceIDs a) x -> x ∈ Agent.HoldsEvidenceIDs a) ->
      forall x, Agent.member (Agent.RevealedEvidenceIDs a') x -> x ∈ Agent.HoldsEvidenceIDs a') /\
     (forall x, Agent.member (Agent.RevealedLocationIDs a') x ->
      Agent.member (Agent.RevealedLocationIDs a) x \/
      exists env req st, In (env, req) steps /\ Pipeline.StoryDB env = Some st /\
        In x (map Location.ID (Story.Locations st)))) /\
  (forall agentID d convs a,
     Reconstruct.LoadAgentFromDatabase agentID (Some d) convs = Some a ->
     Agent.HoldsEvidenceIDs a = AgentDocument.HoldsEvidenceIDs d /\
     Agent.KnowsLocationIDs a = AgentDocument.KnowsLocationIDs d /\
     Agent.RevealedEvidenceIDs a = default ∅ (AgentDocument.RevealedEvidenceIDs d) /\
     Agent.RevealedLocationIDs a = default ∅ (AgentDocument.RevealedLocationIDs d)).
Proof.
  split; [|split; [|split]].
  - intros. split; reflexivity.
  - intros json ecc nat agentID sp sc sid cid cn pers evs locs steps a. subst a.
    destruct (run_reveals json ecc nat steps
                (SpawnAgentWithCharacter agentID sp sc sid cid cn pers evs locs))
      as (Hh & _ & He & Hl).
    split.
    + intros x Hx. rewrite Hh in He. refine (He _ x Hx).
      intros y Hy. unfold Agent.member in Hy. simpl in Hy. by rewrite lookup_empty in Hy.
    + intros x Hx. destruct (Hl x Hx) as [H|H]; [|exact H].
      unfold Agent.member in H. simpl in H. by rewrite lookup_empty in H.
  - intros json ecc nat a steps. exact (run_reveals json ecc nat steps a).
  - intros agentID d convs a. unfold Reconstruct.LoadAgentFromDatabase. cbv zeta.
    destruct convs as [convs|]; [|intros [= <-]; repeat split].
    destruct (_ || _); intros [= <-]; repeat split.
Qed.

(** ** Reconstruction *)

Lemma filter_all_true {A} (f : A -> bool) (l : list A) :
  List.Forall (fun x => f x = true) l -> List.filter f l = l.
Proof. induction 1 as [|x l Hx _ IH]; simpl; [done|]. by rewrite Hx, IH. Qed.

(** a log of non-blank turns with indices 1, 2, ... gets the synthesized
    instruction turn in front *)
Lemma load_length (agentID : string) (d : AgentDocument.t)
    (convs : list ConversationDocument.t) (a : Agent.t) :
  List.Forall (fun c => Reconstruct.notBlank c = true) convs ->
  map ConversationDocument.Index convs = seq 1 (length convs) ->
  Reconstruct.LoadAgentFromDatabase agentID (Some d) (Some convs) = Some a ->
  length (Agent.History a) = S (length convs).
Proof.
  intros Hnb Hidx. unfold Reconstruct.LoadAgentFromDatabase. cbv zeta.
  assert (Hh : Reconstruct.loadHistory convs = map Reconstruct.toContent convs)
    by (unfold Reconstruct.loadHistory; by rewrite filter_all_true).
  rewrite Hh.
  destruct convs as [|c rest]; [intros [= <-]; reflexivity|].
  simpl in Hidx. injection Hidx as Hc _. rewrite Hc.
  change (Nat.eqb 1 0) with false. rewrite andb_false_r. simpl.
  intros [= <-]. simpl. by rewrite length_map.
Qed.

(** ** C3: the turn indices *)

(** C3 (as stated, refuted): the instruction turn a spawned agent starts
    with is never saved, so the first saved index is 1, not 0. One turn of
    the scenario saves the indices 1 and 2. *)
Lemma C3_first_saved_index_is_one :
  map Pipeline.index
    (snd (Pipeline.run Scenario.json_unmarshal Scenario.extractClientContent
            Scenario.naturalResponse Scenario.spawned [(Scenario.env, Scenario.req)]))
  = [1; 2]%nat.
Proof. vm_compute. reflexivity. Qed.

(** C3 (amended): the indices saved by any run of turns are consecutive,
    starting at the length of the history the run starts from; from a
    spawned agent they are 1, 2, 3, ... (the instruction turn, at position
    0, is not saved). A reconstruction from a log of non-blank turns whose
    indices are 1, ..., n puts the synthesized instruction in front, and
    the turns saved after it continue with n + 1, n + 2, ...: no index is
    repeated or skipped. *)
Theorem C3_indices_consecutive_amended :
  (forall json_unmarshal extractClientContent naturalResponse (a : Agent.t) steps,
     let ss := snd (Pipeline.run json_unmarshal extractClientContent naturalResponse a steps) in
     map Pipeline.index ss = seq (length (Agent.History a)) (length ss)) /\
  (forall json_unmarshal extractClientContent naturalResponse agentID systemPrompt
          storyContext storyID characterID characterName personality
          (evidenceIDs locationIDs : list string) steps,
     let ss := snd (Pipeline.run json_unmarshal extractClientContent naturalResponse
                     (SpawnAgentWithCharacter agentID systemPrompt storyContext storyID
                        characterID characterName personality evidenceIDs locationIDs)
                     steps) in
     map Pipeline.index ss = seq 1 (length ss)) /\
  (forall json_unmarshal extractClientContent naturalResponse agentID d convs a steps,
     List.Forall (fun c => Reconstruct.notBlank c = true) convs ->
     map ConversationDocument.Index convs = seq 1 (length convs) ->
     Reconstruct.LoadAgentFromDatabase agentID (Some d) (Some convs) = Some a ->
     let ss := snd (Pipeline.run json_unmarshal extractClientContent naturalResponse a steps) in
     map Pipeline.index ss = seq (S (length convs)) (length ss)).
Proof.
  split; [|split].
  - intros json ecc nat a steps ss. exact (proj1 (run_indices json ecc nat steps a)).
  - intros json ecc nat agentID sp sc sid cid cn pers evs locs steps ss.
    exact (proj1 (run_indices json ecc nat steps _)).
  - intros json ecc nat agentID d convs a steps Hnb Hidx Hload ss.
    rewrite <- (load_length agentID d convs a Hnb Hidx Hload).
    exact (proj1 (run_indices json ecc nat steps a)).
Qed.

(** ** C6: the instruction turn of a reconstructed agent *)

(** C6 (as stated, refuted): when the conversations read fails, part_009
    returns the agent with an empty history, no instruction turn. *)
Lemma C6_read_failure_empty_history :
  exists a, Reconstruct.LoadAgentFromDatabase "agent_1" (Some Scenario.doc) None = Some a /\
    Agent.History a = [].
Proof. eexists. split; reflexivity. Qed.

(** C6 (amended): when the conversations read fails the history is empty.
    When it succeeds and the first document is not a model turn at index 0,
    or no document is kept (all blank or none), the history is the
    synthesized generic instruction (built from the stored character name
    and personality, no story data) followed by the non-blank documents.
    When the first document is a non-blank model turn at index 0, the
    history is the non-blank documents, starting with that turn. *)
Theorem C6_reconstruct_history_amended (agentID : string) (d : AgentDocument.t) :
  (forall a, Reconstruct.LoadAgentFromDatabase agentID (Some d) None = Some a ->
     Agent.History a = []) /\
  (forall convs,
     (match convs with
      | c :: _ => ~ (ConversationDocument.Role c = "model"%string /\
                     ConversationDocument.Index c = 0%nat)
      | [] => True
      end \/ Reconstruct.loadHistory convs = []) ->
     exists a, Reconstruct.LoadAgentFromDatabase agentID (Some d) (Some convs) = Some a /\
       Agent.History a =
         Content.mk RoleModel (Reconstruct.systemMessage (AgentDocument.CharacterName d)
                                 (AgentDocument.Personality d))
         :: Reconstruct.loadHistory convs) /\
  (forall c rest,
     ConversationDocument.Role c = "model"%string -> ConversationDocument.Index c = 0%nat ->
     Reconstruct.notBlank c = true ->
     exists a, Reconstruct.LoadAgentFromDatabase agentID (Some d) (Some (c :: rest)) = Some a /\
       Agent.History a = Content.mk RoleModel (ConversationDocument.Content c)
                         :: Reconstruct.loadHistory rest).
Proof.
  split; [|split].
  - intros a. simpl. intros [= <-]. reflexivity.
  - intros convs Hc. unfold Reconstruct.LoadAgentFromDatabase. cbv zeta.
    destruct convs as [|c rest]; [eexists; split; reflexivity|].
    destruct Hc as [Hc | Hc].
    + destruct (String.eqb (ConversationDocument.Role c) "model") eqn:E1,
               (Nat.eqb (ConversationDocument.Index c) 0) eqn:E2.
      * apply String.eqb_eq in E1. apply Nat.eqb_eq in E2. tauto.
      * rewrite !andb_false_r. simpl. eexists; split; reflexivity.
      * rewrite andb_false_r. simpl. eexists; split; reflexivity.
      * rewrite andb_false_r. simpl. eexists; split; reflexivity.
    + rewrite Hc. simpl. eexists; split; reflexivity.
  - intros c rest Hr Hi Hnb.
    assert (Hl : Reconstruct.loadHistory (c :: rest)
                 = Content.mk RoleModel (ConversationDocument.Content c)
                   :: Reconstruct.loadHistory rest).
    { unfold Reconstruct.loadHistory. simpl. rewrite Hnb. simpl.
      unfold Reconstruct.toContent. rewrite Hr. reflexivity. }
    unfold Reconstruct.LoadAgentFromDatabase. cbv zeta. rewrite Hl, Hr, Hi.
    simpl. eexists; split; reflexivity.
Qed.

(* ================================================================= *)
(** * Witnesses: the theorems applied to the scenario *)
(* ================================================================= *)

Lemma C1_reveal_invariants_amended_witness :
  ("ev_1"%string ∈ ["ev_1"%string] /\
   exists env req st, In (env, req) [(Scenario.env, Scenario.req)] /\
     Pipeline.StoryDB env = Some st /\ In "loc_1"%string (map Location.ID (Story.Locations st))) /\
  Agent.KnowsLocationIDs
    (default Scenario.spawned
       (Reconstruct.LoadAgentFromDatabase "agent_1" (Some Scenario.doc) (Some Scenario.log)))
  = [].
Proof.
  destruct C1_reveal_invariants_amended as (_ & Hrun & _ & Hload).
  destruct (Hrun Scenario.json_unmarshal Scenario.extractClientContent Scenario.naturalResponse
              "agent_1" "You are Bob." "A mystery." "story_1" "char_1" "Bob" "calm"
              ["ev_1"] [] [(Scenario.env, Scenario.req)]) as [He Hl].
  split; [split|].
  - apply He. vm_compute. reflexivity.
  - apply Hl. vm_compute. reflexivity.
  - exact (proj1 (proj2 (Hload "agent_1" Scenario.doc (Some Scenario.log) _
                            ltac:(vm_compute; reflexivity)))).
Defined.

Lemma C2_validate_subset_ordered_witness :
  "ev_1"%string ∈ ["ev_1"%string].
Proof.
  apply (proj1 (C2_validate_subset_ordered ["ev_1"; "ev_2"; "ev_1"] ["ev_1"])).
  apply list_elem_of_In. simpl. left. reflexivity.
Defined.

Lemma C3_indices_consecutive_amended_witness :
  map Pipeline.index
    (snd (Pipeline.run Scenario.json_unmarshal Scenario.extractClientContent
            Scenario.naturalResponse
            (default Scenario.spawned
               (Reconstruct.LoadAgentFromDatabase "agent_1" (Some Scenario.doc)
                  (Some Scenario.log)))
            [(Scenario.env, Scenario.req)]))
  = seq 3 (length
      (snd (Pipeline.run Scenario.json_unmarshal Scenario.extractClientContent
              Scenario.naturalResponse
              (default Scenario.spawned
                 (Reconstruct.LoadAgentFromDatabase "agent_1" (Some Scenario.doc)
                    (Some Scenario.log)))
              [(Scenario.env, Scenario.req)]))).
Proof.
  refine (proj2 (proj2 C3_indices_consecutive_amended)
            Scenario.json_unmarshal Scenario.extractClientContent Scenario.naturalResponse
            "agent_1" Scenario.doc Scenario.log _ [(Scenario.env, Scenario.req)] _ _ _).
  - repeat constructor.
  - reflexivity.
  - vm_compute. reflexivity.
Defined.

Lemma C4_detector_test_contract_witness :
  In "loc_1"%string (Detector.DetectRevealedLocations [Scenario.secretLab]
                       "Meet me at the secret lab tonight.").
Proof.
  exact (proj1 C4_detector_test_contract [Scenario.secretLab] Scenario.secretLab
           (or_introl eq_refl) eq_refl).
Defined.

Lemma C5_parse_failure_fallback_witness :
  Pipeline.outcome
    (Pipeline.MessageHandler Scenario.json_fails Scenario.extractClientContent
       Scenario.naturalResponse Scenario.env Scenario.req)
  = Pipeline.Encoded
      (MessageResponse.mk (Pipeline.generateFallbackResponse Scenario.spawned) [] []).
Proof.
  refine (proj1 (C5_parse_failure_fallback Scenario.json_fails Scenario.extractClientContent
                   Scenario.naturalResponse Scenario.env Scenario.req Scenario.spawned
                   "Where should we meet?" "raw" _ _ _ _ _ _ _ _)).
  all: first [reflexivity | vm_compute; discriminate | right; left; reflexivity].
Defined.

Lemma C6_reconstruct_history_amended_witness :
  exists a, Reconstruct.LoadAgentFromDatabase "agent_1" (Some Scenario.doc)
              (Some Scenario.log) = Some a /\
    Agent.History a =
      Content.mk RoleModel (Reconstruct.systemMessage "Bob" "calm")
      :: Reconstruct.loadHistory Scenario.log.
Proof.
  apply (proj1 (proj2 (C6_reconstruct_history_amended "agent_1" Scenario.doc)) Scenario.log).
  left. intros [H _]. vm_compute in H. discriminate H.
Defined.

Lemma C7_blank_message_rejected_witness :
  Pipeline.MessageHandler Scenario.json_unmarshal Scenario.extractClientContent
    Scenario.naturalResponse Scenario.env Scenario.blankReq =
  Pipeline.mkResult (Pipeline.HttpError 400 "Message cannot be empty")
    (Some Scenario.spawned) [] 0.
Proof.
  refine (proj1 (C7_blank_message_rejected Scenario.json_unmarshal
                   Scenario.extractClientContent Scenario.naturalResponse Scenario.env
                   Scenario.blankReq Scenario.spawned " " _ _ _) _).
  all: first [reflexivity | vm_compute; discriminate].
Defined.

Lemma C8_validate_idempotent_tracking_noop_witness :
  updateAgentTracking (updateAgentTracking Scenario.spawned ["ev_1"] ["loc_1"])
    ["ev_1"] ["loc_1"]
  = updateAgentTracking Scenario.spawned ["ev_1"] ["loc_1"].
Proof.
  apply (proj2 C8_validate_idempotent_tracking_noop).
  - constructor; [vm_compute; reflexivity | constructor].
  - constructor; [vm_compute; reflexivity | constructor].
Defined.

Lemma C9_blank_message_not_saved_witness :
  Repo.SaveConversationMessageWithVersions (fun _ => true) [true] (Repo.mk [])
    "agent_1" " " " " "user" 1 [] [] = (None, Repo.mk []).
Proof. apply C9_blank_message_not_saved; reflexivity. Defined.

Lemma C10_context_makes_message_nonblank_witness :
  Pipeline.outcome
    (Pipeline.MessageHandler Scenario.json_unmarshal Scenario.extractClientContent
       Scenario.naturalResponse Scenario.env Scenario.blankAtLabReq)
  <> Pipeline.HttpError 400 "Message cannot be empty".
Proof.
  destruct (C10_context_makes_message_nonblank Scenario.json_unmarshal
              Scenario.extractClientContent Scenario.naturalResponse Scenario.env
              Scenario.blankAtLabReq Scenario.spawned Scenario.story)
    as (um & _ & _ & Hno & _).
  - reflexivity.
  - vm_compute. discriminate.
  - reflexivity.
  - reflexivity.
  - left. split; [vm_compute; discriminate | exists Scenario.secretLab; reflexivity].
  - exact (Hno _).
Defined.

(* ================================================================= *)
(** * Further properties of the code *)
(* ================================================================= *)

(** ** Client-safe content *)

Section ClientFacts.
Import GoStrings ClientContent.

Lemma append_cons (c : ascii) (a b : string) :
  String.append (String c a) b = String c (String.append a b).
Proof. reflexivity. Qed.

Lemma append_empty_r (s : string) : String.append s EmptyString = s.
Proof. induction s as [|c s IH]; [reflexivity|]. by rewrite append_cons, IH. Qed.

Lemma append_assoc_str (a b c : string) :
  String.append (String.append a b) c = String.append a (String.append b c).
Proof. induction a as [|x a IH]; [reflexivity|]. by rewrite !append_cons, IH. Qed.

Lemma HasPrefix_app (t r : string) : HasPrefix (String.append t r) t = true.
Proof.
  induction t as [|c t IH]; [by destruct r|].
  rewrite append_cons. simpl. by rewrite Ascii.eqb_refl.
Qed.

Lemma Contains_app_r (a b t : string) :
  Contains b t = true -> Contains (String.append a b) t = true.
Proof.
  induction a as [|c a IH]; [done|]. intros H. rewrite append_cons. simpl.
  rewrite (IH H). apply orb_true_r.
Qed.

Lemma Contains_prefix (t r : string) : Contains (String.append t r) t = true.
Proof.
  destruct t as [|c t]; [by destruct r|].
  rewrite append_cons. simpl. by rewrite Ascii.eqb_refl, HasPrefix_app.
Qed.

Lemma Contains_char (s : string) (c : ascii) :
  In c (list_ascii_of_string s) -> Contains s (String c EmptyString) = true.
Proof.
  induction s as [|d s IH]; simpl; [intros []|]. intros [->|H].
  - rewrite Ascii.eqb_refl. by destruct s.
  - rewrite (IH H). apply orb_true_r.
Qed.

Lemma perlSpace_cases (c : ascii) :
  perlSpace c = true ->
  c = ascii_of_nat 9 \/ c = ascii_of_nat 10 \/ c = ascii_of_nat 12 \/
  c = ascii_of_nat 13 \/ c = ascii_of_nat 32.
Proof.
  destruct c as [[] [] [] [] [] [] [] []]; intros H; try discriminate H; vm_compute;
    repeat (first [left; reflexivity | right]); reflexivity.
Qed.

Lemma perlSpace_not_bracket (c : ascii) : perlSpace c = true -> Ascii.eqb "[" c = false.
Proof. intros H. by destruct (perlSpace_cases c H) as [->|[->|[->|[->| ->]]]]. Qed.

(** a white-space byte in front does not change TrimSpace *)
Lemma TrimSpace_cons_perl (c : ascii) (s : string) :
  perlSpace c = true -> TrimSpace (String c s) = TrimSpace s.
Proof.
  intros H. unfold TrimSpace. simpl list_ascii_of_string. f_equal. f_equal.
  destruct (perlSpace_cases c H) as [->|[->|[->|[->| ->]]]]; reflexivity.
Qed.

Lemma scan_cons_noTag (c : ascii) (s : string) :
  HasPrefix (String c s) locationTagOpen = false ->
  removeLocationTags Scan (String c s) = String c (removeLocationTags Scan s).
Proof.
  intros Hc.
  change (removeLocationTags Scan (String c s)) with
    (if HasPrefix (String c s) locationTagOpen && Contains s "]"
     then removeLocationTags InTag s else String c (removeLocationTags Scan s)).
  by rewrite Hc.
Qed.

Lemma scan_cons_other (c : ascii) (s : string) :
  Ascii.eqb "[" c = false ->
  removeLocationTags Scan (String c s) = String c (removeLocationTags Scan s).
Proof.
  intros Hc.
  change (removeLocationTags Scan (String c s)) with
    (if HasPrefix (String c s) locationTagOpen && Contains s "]"
     then removeLocationTags InTag s else String c (removeLocationTags Scan s)).
  unfold locationTagOpen. cbn [HasPrefix]. by rewrite Hc.
Qed.

Lemma scan_no_bracket (a b : string) :
  ~ In "["%char (list_ascii_of_string a) ->
  removeLocationTags Scan (String.append a b) = String.append a (removeLocationTags Scan b).
Proof.
  induction a as [|c a IH]; intros Hn; [reflexivity|].
  simpl in Hn. rewrite !append_cons.
  assert (Hc : Ascii.eqb "[" c = false) by (apply Ascii.eqb_neq; intros E; subst c; tauto).
  rewrite (scan_cons_other c _ Hc). f_equal. apply IH. tauto.
Qed.

Lemma inTag_skip (a b : string) :
  ~ In "]"%char (list_ascii_of_string a) ->
  removeLocationTags InTag (String.append a b) = removeLocationTags InTag b.
Proof.
  induction a as [|c a IH]; intros Hn; [reflexivity|].
  simpl in Hn. rewrite append_cons. simpl.
  assert (Hc : Ascii.eqb c "]" = false) by (apply Ascii.eqb_neq; intros E; subst c; tauto).
  rewrite Hc. apply IH. tauto.
Qed.

Lemma afterTag_dropPerl (s : string) :
  removeLocationTags AfterTag s = removeLocationTags Scan (dropPerlSpace s).
Proof.
  induction s as [|c s IH]; [reflexivity|]. simpl.
  destruct (perlSpace c); [exact IH | reflexivity].
Qed.

Lemma dropNewlines_no_marker (a b : string) :
  ~ In "["%char (list_ascii_of_string a) ->
  HasPrefix (dropNewlines b) evidenceMarker = false ->
  HasPrefix (dropNewlines (String.append a b)) evidenceMarker = false.
Proof.
  induction a as [|c a IH]; intros Hn Hb; [exact Hb|].
  simpl in Hn. rewrite append_cons. cbn [dropNewlines].
  destruct (Ascii.eqb c (ascii_of_nat 10)); [apply IH; tauto|].
  unfold evidenceMarker. cbn [HasPrefix].
  assert (Hc : Ascii.eqb "[" c = false) by (apply Ascii.eqb_neq; intros E; subst c; tauto).
  by rewrite Hc.
Qed.

Lemma evidence_no_bracket (a b : string) :
  ~ In "["%char (list_ascii_of_string a) ->
  HasPrefix (dropNewlines b) evidenceMarker = false ->
  removeEvidenceSection (String.append a b) = String.append a (removeEvidenceSection b).
Proof.
  induction a as [|c a IH]; intros Hn Hb; [reflexivity|].
  change (removeEvidenceSection (String.append (String c a) b)) with
    (if HasPrefix (dropNewlines (String.append (String c a) b)) evidenceMarker
     then EmptyString else String c (removeEvidenceSection (String.append a b))).
  rewrite (dropNewlines_no_marker (String c a) b Hn Hb).
  simpl in Hn. rewrite append_cons. f_equal. apply IH; [tauto | exact Hb].
Qed.


Lemma notin_of_forallb (c : ascii) (l : list ascii) :
  forallb (fun d => negb (Ascii.eqb d c)) l = true -> ~ In c l.
Proof.
  induction l as [|d l IH]; simpl; [tauto|]. rewrite andb_true_iff.
  intros [H1 H2] [->|H]; [by rewrite Ascii.eqb_refl in H1 | exact (IH H2 H)].
Qed.

Lemma inTag_close (s : string) :
  removeLocationTags InTag (String "]" s) = removeLocationTags AfterTag s.
Proof. reflexivity. Qed.

(** a byte that is neither a newline nor '[' is kept by the evidence regex *)
Lemma evidence_cons_plain (c : ascii) (s : string) :
  negb (Ascii.eqb c (ascii_of_nat 10)) && negb (Ascii.eqb "[" c) = true ->
  removeEvidenceSection (String c s) = String c (removeEvidenceSection s).
Proof.
  rewrite andb_true_iff, !negb_true_iff. intros [H1 H2].
  change (removeEvidenceSection (String c s)) with
    (if HasPrefix (dropNewlines (String c s)) evidenceMarker then EmptyString
     else String c (removeEvidenceSection s)).
  cbn [dropNewlines]. rewrite H1. unfold evidenceMarker at 1. cbn [HasPrefix].
  by rewrite H2.
Qed.

Lemma evidence_plain_app (a b : string) :
  forallb (fun c => negb (Ascii.eqb c (ascii_of_nat 10)) && negb (Ascii.eqb "[" c))
    (list_ascii_of_string a) = true ->
  removeEvidenceSection (String.append a b) = String.append a (removeEvidenceSection b).
Proof.
  induction a as [|c a IH]; [reflexivity|]. intros H. cbn [list_ascii_of_string forallb] in H.
  apply andb_true_iff in H as [H1 H2]. rewrite append_cons, (evidence_cons_plain c _ H1), append_cons. f_equal. exact (IH H2).
Qed.

Lemma evidence_at_marker (s : string) :
  removeEvidenceSection (String.append evidenceMarker s) = EmptyString.
Proof.
  change (removeEvidenceSection (String.append evidenceMarker s)) with
    (if HasPrefix (dropNewlines (String.append evidenceMarker s)) evidenceMarker
     then EmptyString else String "[" (removeEvidenceSection
       (String.append (String.substring 1 60 evidenceMarker) s))).
  change (dropNewlines (String.append evidenceMarker s)) with (String.append evidenceMarker s).
  by rewrite HasPrefix_app.
Qed.

(** the client version ignores white space in front *)
Lemma client_cons_perl (c : ascii) (s : string) :
  perlSpace c = true ->
  TrimSpace (removeEvidenceSection (removeLocationTags Scan (String c s))) =
  TrimSpace (removeEvidenceSection (removeLocationTags Scan s)).
Proof.
  intros H.
  assert (Hs : removeLocationTags Scan (String c s) = String c (removeLocationTags Scan s)).
  { apply scan_cons_other. by apply perlSpace_not_bracket. }
  rewrite Hs. generalize (removeLocationTags Scan s) as y. intros y.
  change (removeEvidenceSection (String c y)) with
    (if HasPrefix (dropNewlines (String c y)) evidenceMarker then EmptyString
     else String c (removeEvidenceSection y)).
  destruct (Ascii.eqb c (ascii_of_nat 10)) eqn:Hn.
  - apply Ascii.eqb_eq in Hn. subst c. cbn [dropNewlines]. rewrite Ascii.eqb_refl.
    destruct (HasPrefix (dropNewlines y) evidenceMarker) eqn:Hm.
    + destruct y as [|d y]; [reflexivity|].
      change (removeEvidenceSection (String d y)) with
        (if HasPrefix (dropNewlines (String d y)) evidenceMarker then EmptyString
         else String d (removeEvidenceSection y)).
      by rewrite Hm.
    + by rewrite TrimSpace_cons_perl.
  - cbn [dropNewlines]. rewrite Hn. unfold evidenceMarker at 1. cbn [HasPrefix].
    rewrite (perlSpace_not_bracket c H). simpl andb. cbn iota. by rewrite TrimSpace_cons_perl.
Qed.

Lemma client_dropPerl (s : string) :
  TrimSpace (removeEvidenceSection (removeLocationTags Scan (dropPerlSpace s))) =
  TrimSpace (removeEvidenceSection (removeLocationTags Scan s)).
Proof.
  induction s as [|c s IH]; [reflexivity|]. simpl dropPerlSpace.
  destruct (perlSpace c) eqn:H; [|reflexivity].
  rewrite IH. symmetry. by apply client_cons_perl.
Qed.

Lemma eqb_user_model : String.eqb "user" "model" = false.
Proof. reflexivity. Qed.

(** extractClientContent removes the "[CURRENT LOCATION: ...]" header the
    handler puts in front of a user message, together with the blank
    lines after it: the client sees the same text as for the bare message
    (as long as the location's name and description hold no ']'). *)
Lemma extract_drops_location_prefix (loc : Location.t) (m : string) :
  ~ In "]"%char (list_ascii_of_string (Location.LocationName loc)) ->
  ~ In "]"%char (list_ascii_of_string (Location.VisualDescription loc)) ->
  extractClientContent (Pipeline.locationPrefix loc m) "user" = extractClientContent m "user".
Proof.
  intros Hn Hv. unfold extractClientContent. rewrite eqb_user_model. cbn [andb].
  set (Z := String.append Pipeline.nl (String.append Pipeline.nl (String.append m EmptyString))).
  set (R := String.append " " (String.append (Location.LocationName loc)
              (String.append " - " (String.append (Location.VisualDescription loc)
                 (String.append "]" Z))))).
  assert (Hp : Pipeline.locationPrefix loc m = String.append locationTagOpen R) by reflexivity.
  assert (HR : Contains R "]" = true).
  { unfold R. do 4 apply Contains_app_r. apply Contains_prefix. }
  assert (Hscan : removeLocationTags Scan (String.append locationTagOpen R) =
                  removeLocationTags InTag (String.append "CURRENT LOCATION:" R)).
  { change (String.append locationTagOpen R) with
      (String "[" (String.append "CURRENT LOCATION:" R)).
    change (removeLocationTags Scan (String "[" (String.append "CURRENT LOCATION:" R))) with
      (if HasPrefix (String "[" (String.append "CURRENT LOCATION:" R)) locationTagOpen &&
          Contains (String.append "CURRENT LOCATION:" R) "]"
       then removeLocationTags InTag (String.append "CURRENT LOCATION:" R)
       else String "[" (removeLocationTags Scan (String.append "CURRENT LOCATION:" R))).
    change (String "[" (String.append "CURRENT LOCATION:" R)) with
      (String.append locationTagOpen R).
    rewrite HasPrefix_app.
    rewrite (Contains_app_r "CURRENT LOCATION:" R "]" HR). reflexivity. }
  rewrite Hp, Hscan.
  rewrite inTag_skip by (apply notin_of_forallb; reflexivity).
  unfold R. rewrite inTag_skip by (apply notin_of_forallb; reflexivity).
  rewrite inTag_skip by exact Hn.
  rewrite inTag_skip by (apply notin_of_forallb; reflexivity).
  rewrite inTag_skip by exact Hv.
  change (String.append "]" Z) with (String "]" Z).
  rewrite inTag_close, afterTag_dropPerl.
  unfold Z. rewrite append_empty_r.
  change (dropPerlSpace (String.append Pipeline.nl (String.append Pipeline.nl m)))
    with (dropPerlSpace m).
  apply client_dropPerl.
Qed.

(** a user message without '[' reaches the client only trimmed *)
Lemma extract_plain_user_message (m : string) :
  ~ In "["%char (list_ascii_of_string m) ->
  extractClientContent m "user" = TrimSpace m.
Proof.
  intros Hm. unfold extractClientContent. rewrite eqb_user_model. cbn [andb].
  rewrite <- (append_empty_r m) at 1. rewrite (scan_no_bracket m EmptyString Hm).
  change (removeLocationTags Scan EmptyString) with EmptyString.
  rewrite (evidence_no_bracket m EmptyString Hm) by reflexivity.
  change (removeEvidenceSection EmptyString) with EmptyString.
  by rewrite append_empty_r.
Qed.

Lemma nl_append (x : string) : String.append Pipeline.nl x = String (ascii_of_nat 10) x.
Proof. reflexivity. Qed.

Lemma evidence_cons_nl (s : string) :
  HasPrefix (dropNewlines s) evidenceMarker = false ->
  removeEvidenceSection (String (ascii_of_nat 10) s) =
  String (ascii_of_nat 10) (removeEvidenceSection s).
Proof.
  intros H.
  change (removeEvidenceSection (String (ascii_of_nat 10) s)) with
    (if HasPrefix (dropNewlines (String (ascii_of_nat 10) s)) evidenceMarker then EmptyString
     else String (ascii_of_nat 10) (removeEvidenceSection s)).
  change (dropNewlines (String (ascii_of_nat 10) s)) with (dropNewlines s).
  by rewrite H.
Qed.

Lemma evidence_nl_marker (s : string) :
  removeEvidenceSection (String (ascii_of_nat 10) (String.append evidenceMarker s)) = EmptyString.
Proof.
  change (removeEvidenceSection (String (ascii_of_nat 10) (String.append evidenceMarker s))) with
    (if HasPrefix (dropNewlines (String (ascii_of_nat 10) (String.append evidenceMarker s)))
          evidenceMarker then EmptyString
     else String (ascii_of_nat 10) (removeEvidenceSection (String.append evidenceMarker s))).
  change (dropNewlines (String (ascii_of_nat 10) (String.append evidenceMarker s))) with
    (String.append evidenceMarker s).
  by rewrite HasPrefix_app.
Qed.
(** the evidence block the handler appends is not fully removed: the
    regex's leading \n* only reaches back to the newline in front of the
    "[USER IS PRESENTING ...]" marker, so the two blank lines and the
    first "=" rule stay in the content shown to the client *)
Lemma extract_keeps_evidence_rule (m : string) (evs : list Evidence.t) :
  ~ In "["%char (list_ascii_of_string m) ->
  extractClientContent (String.append m (Pipeline.evidenceSuffix evs)) "user" =
  TrimSpace (String.append m (String.append Pipeline.nl (String.append Pipeline.nl
    (Pipeline.rule40 "=")))).
Proof.
  intros Hm. unfold extractClientContent. rewrite eqb_user_model. cbn [andb].
  set (W := Pipeline.cat (map Pipeline.evidenceBlock evs)).
  set (Z := String.append Pipeline.nl (String.append (Pipeline.rule40 "=")
              (String.append Pipeline.nl W))).
  set (M' := "USER IS PRESENTING THE FOLLOWING EVIDENCE TO YOU]:").
  set (H := String.append Pipeline.nl (String.append Pipeline.nl
              (String.append (Pipeline.rule40 "=") Pipeline.nl))).
  assert (He : Pipeline.evidenceSuffix evs =
               String.append H (String "[" (String.append M' Z))).
  { unfold Pipeline.evidenceSuffix, H, Z, W, M'. cbn [app Pipeline.cat fold_right].
    rewrite !append_assoc_str. reflexivity. }
  rewrite He, (scan_no_bracket m _ Hm).
  rewrite (scan_no_bracket H _) by (apply notin_of_forallb; reflexivity).
  rewrite scan_cons_noTag by reflexivity.
  assert (HM : ~ In "["%char (list_ascii_of_string M')).
  { apply notin_of_forallb. reflexivity. }
  rewrite (scan_no_bracket M' Z HM).
  set (Y := removeLocationTags Scan Z).
  assert (HY : HasPrefix (dropNewlines (String.append H (String "[" (String.append M' Y)))) evidenceMarker = false).
  { unfold H. reflexivity. }
  rewrite (evidence_no_bracket m _ Hm HY).
  clearbody Y.
  change (String "[" (String.append M' Y)) with (String.append evidenceMarker Y).
  unfold H. rewrite !append_assoc_str.
  rewrite !nl_append.
  rewrite evidence_cons_nl by reflexivity.
  rewrite evidence_cons_nl by reflexivity.
  rewrite evidence_plain_app by reflexivity.
  rewrite evidence_nl_marker, append_empty_r. reflexivity.
Qed.

(** the instruction LoadAgentFromDatabase synthesizes for a recovered
    agent is hidden from the client whatever the name and personality:
    it contains at least two system-prompt indicators *)
Lemma extract_hides_system_message (name personality : string) :
  extractClientContent (Reconstruct.systemMessage name personality) "model" = EmptyString.
Proof.
  unfold extractClientContent.
  assert (Hs : isSystemPrompt (Reconstruct.systemMessage name personality) = true).
  { set (X := Reconstruct.systemMessage name personality).
    assert (H1 : Contains X "You are" = true).
    { unfold X, Reconstruct.systemMessage, Pipeline.cat. cbn [fold_right].
      change (String.append "You are " ?r) with (String.append "You are" (String " " r)).
      apply Contains_prefix. }
    assert (H3 : Contains X "IMPORTANT: Only provide spoken dialogue" = true).
    { unfold X, Reconstruct.systemMessage, Pipeline.cat. cbn [fold_right].
      do 7 apply Contains_app_r.
      change (String.append "IMPORTANT: Only provide spoken dialogue - what your character says out loud. Do NOT include action descriptions like " ?r)
        with (String.append "IMPORTANT: Only provide spoken dialogue"
                (String.append " - what your character says out loud. Do NOT include action descriptions like " r)).
      apply Contains_prefix. }
    unfold isSystemPrompt, systemIndicators. cbn [List.filter].
    rewrite H1, H3.
    destruct (Contains X "Your personality is"), (Contains X "Continue the conversation naturally based on your character"),
      (Contains X "[Note: This agent was loaded from database"),
      (Contains X "Stay in character and respond as your character would"); reflexivity. }
  by rewrite Hs.
Qed.

End ClientFacts.

Section DetectorExtra.
Import GoStrings Detector.

Lemma rule_needs_name (dl nl : string) :
  revealRule dl nl = true \/ actionRule dl nl = true \/ meetingRule dl nl = true \/
  specificRule dl nl = true -> Contains dl nl = true.
Proof.
  unfold revealRule, actionRule, meetingRule, specificRule. rewrite !existsb_exists.
  intros [[p [_ H]]|[[[a b] [_ H]]|[[m [_ H]]|[pat [Hp H]]]]].
  - rewrite !andb_true_iff in H. tauto.
  - simpl in H. rewrite !andb_true_iff in H. tauto.
  - apply existsb_exists in H as [t [_ H]]. rewrite !andb_true_iff in H. tauto.
  - rewrite forallb_forall in H. apply H. simpl in Hp.
    repeat destruct Hp as [<-|Hp]; simpl; auto. destruct Hp.
Qed.

Lemma detectLocation_mentions (dl : string) (loc : Location.t) (x : string) :
  In x (detectLocation dl loc) ->
  x = Location.ID loc /\ Contains dl (ToLower (Location.LocationName loc)) = true.
Proof.
  unfold detectLocation. rewrite !in_app_iff.
  destruct (revealRule _ _) eqn:H1, (actionRule _ _) eqn:H2, (meetingRule _ _) eqn:H3,
    (specificRule _ _) eqn:H4; simpl;
    intros Hx; repeat destruct Hx as [Hx|Hx]; try contradiction; subst; split; auto;
    apply rule_needs_name; tauto.
Qed.

Lemma uniqueStringsAux_fresh (input : list string) :
  forall (seen : gmap string bool) x,
  In x (uniqueStringsAux seen input) -> default false (seen !! x) = false.
Proof.
  induction input as [|s rest IH]; intros seen x H; [destruct H|]. simpl in H.
  destruct (default false (seen !! s)) eqn:Hs; [exact (IH _ _ H)|].
  destruct H as [<-|H]; [exact Hs|].
  specialize (IH _ _ H). rewrite lookup_insert in IH.
  case_decide; [subst; discriminate | exact IH].
Qed.

Lemma uniqueStringsAux_nodup (input : list string) :
  forall (seen : gmap string bool), NoDup (uniqueStringsAux seen input).
Proof.
  induction input as [|s rest IH]; intros seen; simpl; [constructor|].
  destruct (default false (seen !! s)); [apply IH|].
  constructor; [|apply IH].
  intros Hin. apply list_elem_of_In, uniqueStringsAux_fresh in Hin.
  rewrite lookup_insert in Hin. case_decide; [discriminate | congruence].
Qed.



(** a location is only reported when the dialogue names it *)
Lemma Detect_needs_name_and_nodup (locs : list Location.t) (d : string) :
  NoDup (DetectRevealedLocations locs d) /\
  forall x, In x (DetectRevealedLocations locs d) ->
    exists loc, In loc locs /\ Location.ID loc = x /\
      Contains (ToLower d) (ToLower (Location.LocationName loc)) = true.
Proof.
  unfold DetectRevealedLocations. split; [apply uniqueStringsAux_nodup|].
  intros x Hx. apply uniqueStringsAux_sub, in_concat in Hx as [l [Hl Hx]].
  apply in_map_iff in Hl as [loc [<- Hloc]].
  apply detectLocation_mentions in Hx as [-> Hc]. by exists loc.
Qed.

Lemma index_opt_None (s t : string) : index_opt s t = None <-> Contains s t = false.
Proof.
  induction s as [|c s IH].
  - destruct t; simpl; split; intros; congruence.
  - change (index_opt (String c s) t) with
      (if HasPrefix (String c s) t then Some 0%nat else option_map S (index_opt s t)).
    change (Contains (String c s) t) with (HasPrefix (String c s) t || Contains s t).
    destruct (HasPrefix (String c s) t); simpl; [split; intros; congruence|].
    rewrite <- IH. destruct (index_opt s t); simpl; split; intros; congruence.
Qed.

Lemma index_opt_Contains (s t : string) (n : nat) :
  index_opt s t = Some n -> Contains s t = true.
Proof.
  intros H. destruct (Contains s t) eqn:E; [done|].
  apply index_opt_None in E. congruence.
Qed.

(** withinProximity: both strings must occur, the order of the two
    strings does not matter, and a negative bound never holds *)
Lemma withinProximity_spec (text a b : string) (d : Z) :
  withinProximity text a b d = withinProximity text b a d /\
  (withinProximity text a b d = true ->
     Contains text a = true /\ Contains text b = true /\ (0 <= d)%Z).
Proof.
  unfold withinProximity, Index.
  destruct (index_opt text a) as [n|] eqn:Ha, (index_opt text b) as [m|] eqn:Hb; simpl;
    rewrite ?orb_true_r; try (split; [reflexivity | discriminate]).
  rewrite !(proj2 (Z.eqb_neq _ _)) by lia. simpl. split.
  - f_equal. rewrite <- Z.abs_opp. f_equal. lia.
  - intros H. apply Z.leb_le in H. split; [exact (index_opt_Contains _ _ _ Ha)|].
    split; [exact (index_opt_Contains _ _ _ Hb)|]. pose proof (Z.abs_nonneg (Z.of_nat m - Z.of_nat n)). lia.
Qed.

End DetectorExtra.

Section NameMapFacts.
Import GoStrings NameMaps.

Lemma foldl_insert_lookup {A} (f g : A -> string) (l : list A) :
  forall (m : gmap string string) (k : string),
  foldl (fun m x => <[f x := g x]> m) m l !! k =
  match last (List.filter (fun x => String.eqb (f x) k) l) with
  | Some x => Some (g x)
  | None => m !! k
  end.
Proof.
  induction l as [|x l IH]; intros m k; [reflexivity|].
  cbn [foldl List.filter]. rewrite IH.
  destruct (last (List.filter (fun x => String.eqb (f x) k) l)) as [y|] eqn:E.
  - destruct (String.eqb (f x) k); rewrite ?last_cons, E; reflexivity.
  - rewrite lookup_insert. destruct (String.eqb (f x) k) eqn:Hx.
    + apply String.eqb_eq in Hx. rewrite last_cons, E. case_decide; congruence.
    + apply String.eqb_neq in Hx. rewrite E. case_decide; congruence.
Qed.

Lemma foldl_nested {A B C} (f : C -> A -> C) (h : B -> list A) (l : list B) (c : C) :
  foldl (fun c b => foldl f c (h b)) c l = foldl f c (List.concat (map h l)).
Proof.
  revert c. induction l as [|b l IH]; intros c; [reflexivity|].
  simpl. by rewrite IH, foldl_app.
Qed.

(** each lower-cased location name is sent to the ID of the last
    location with that name; other keys are absent *)
Lemma buildLocationNameMap_lookup (st : Story.t) (k : string) :
  buildLocationNameMap st !! k =
  option_map Location.ID
    (last (List.filter (fun loc => String.eqb (ToLower (Location.LocationName loc)) k)
             (Story.Locations st))).
Proof.
  unfold buildLocationNameMap. rewrite foldl_insert_lookup.
  by destruct (last _).
Qed.

(** the same for evidence titles, over all characters' evidence in order *)
Lemma buildEvidenceNameMap_lookup (st : Story.t) (k : string) :
  buildEvidenceNameMap st !! k =
  option_map Evidence.ID
    (last (List.filter (fun ev => String.eqb (ToLower (Evidence.Title ev)) k)
             (List.concat (map Character.HoldsEvidence (Story.Characters st))))).
Proof.
  unfold buildEvidenceNameMap.
  rewrite (foldl_nested (fun m ev => <[ToLower (Evidence.Title ev) := Evidence.ID ev]> m)).
  rewrite foldl_insert_lookup. by destruct (last _).
Qed.

Lemma mapRevealedNamesToIDs_in (names : list string) (nameMap : gmap string string) (id : string) :
  In id (mapRevealedNamesToIDs names nameMap) ->
  exists name, In name names /\ nameMap !! ToLower (TrimSpace name) = Some id.
Proof.
  induction names as [|n names IH]; simpl; [tauto|].
  destruct (nameMap !! ToLower (TrimSpace n)) as [i|] eqn:E.
  - intros [<-|H]; [by exists n; auto|]. destruct (IH H) as [m [Hm Hl]]. exists m; auto.
  - intros H. destruct (IH H) as [m [Hm Hl]]. exists m; auto.
Qed.

Lemma last_in {A} (l : list A) (x : A) : last l = Some x -> In x l.
Proof.
  induction l as [|y l IH]; [discriminate|]. rewrite last_cons.
  destruct (last l) eqn:E; intros H.
  - right. apply IH. congruence.
  - left. congruence.
Qed.

(** every ID mapRevealedNamesToIDs returns for the location name map is
    the ID of a story location named (up to case and surrounding white
    space) by one of the input names *)
Lemma mapRevealedNamesToIDs_locations_sound (st : Story.t) (names : list string) (id : string) :
  In id (mapRevealedNamesToIDs names (buildLocationNameMap st)) ->
  exists loc name, In loc (Story.Locations st) /\ In name names /\ Location.ID loc = id /\
    ToLower (Location.LocationName loc) = ToLower (TrimSpace name).
Proof.
  intros H. apply mapRevealedNamesToIDs_in in H as [name [Hn Hl]].
  rewrite buildLocationNameMap_lookup in Hl.
  destruct (last _) as [loc|] eqn:E; [|discriminate]. simpl in Hl. injection Hl as <-.
  apply last_in, filter_In in E as [Hloc Heq]. apply String.eqb_eq in Heq.
  exists loc, name. auto.
Qed.

Lemma filter_unique_key {A} (f : A -> string) (l : list A) (x : A) :
  NoDup (map f l) -> In x l -> List.filter (fun y => String.eqb (f y) (f x)) l = [x].
Proof.
  induction l as [|y l IH]; [intros _ []|]. simpl. intros Hnd Hin.
  apply NoDup_cons in Hnd as [Hy Hnd].
  assert (Hnone : forall z, In z l -> String.eqb (f z) (f y) = false).
  { intros z Hz. apply String.eqb_neq. intros E. apply Hy.
    apply list_elem_of_In, in_map_iff. by exists z. }
  destruct Hin as [<-|Hin].
  - rewrite String.eqb_refl. f_equal.
    clear IH Hy Hnd. induction l as [|z l IHl]; [reflexivity|]. simpl.
    rewrite (Hnone z (or_introl eq_refl)). apply IHl. intros w Hw. apply Hnone. by right.
  - destruct (String.eqb (f y) (f x)) eqn:E.
    + apply String.eqb_eq in E. exfalso. apply Hy. rewrite E.
      apply list_elem_of_In, in_map_iff. by exists x.
    + by apply IH.
Qed.

(** round trip: when the lower-cased location names are distinct, the
    name of a location (without surrounding white space) maps back to
    its ID *)
Lemma location_name_roundtrip (st : Story.t) (loc : Location.t) :
  In loc (Story.Locations st) ->
  NoDup (map (fun l => ToLower (Location.LocationName l)) (Story.Locations st)) ->
  TrimSpace (Location.LocationName loc) = Location.LocationName loc ->
  mapRevealedNamesToIDs [Location.LocationName loc] (buildLocationNameMap st) = [Location.ID loc].
Proof.
  intros Hin Hnd Ht. simpl. rewrite Ht, buildLocationNameMap_lookup.
  rewrite (filter_unique_key (fun l => ToLower (Location.LocationName l)) _ loc Hnd Hin).
  reflexivity.
Qed.

End NameMapFacts.

Section FilterFacts.
Import GoStrings NameMaps.

Lemma allowedMapOf_lookup (l : list string) (x : string) :
  default false (Validate.allowedMapOf l !! x) = bool_decide (x ∈ l).
Proof.
  change (Validate.allowedMapOf l) with (Validate.track ∅ l).
  rewrite lookup_track, lookup_empty.
  case_decide; simpl; [by rewrite bool_decide_true | by rewrite bool_decide_false].
Qed.

(** an item is reported unavailable exactly when its ID is not in the
    given list; the items keep their order *)
Lemma findUnavailable_filter (mentioned : list MentionedItem.t) (ids : list string) :
  findUnavailableLocations mentioned ids =
    List.filter (fun item => bool_decide (MentionedItem.ID item ∉ ids)) mentioned /\
  findUnavailableEvidence mentioned ids =
    List.filter (fun item => bool_decide (MentionedItem.ID item ∉ ids)) mentioned.
Proof.
  unfold findUnavailableLocations, findUnavailableEvidence.
  assert (E : List.filter (fun item => negb (default false (Validate.allowedMapOf ids !! MentionedItem.ID item))) mentioned =
              List.filter (fun item => bool_decide (MentionedItem.ID item ∉ ids)) mentioned).
  { apply List.filter_ext. intros item. rewrite allowedMapOf_lookup.
    case_bool_decide; case_bool_decide; tauto. }
  split; exact E.
Qed.

Lemma filter_concat_map {A B} (p : B -> bool) (h : A -> list B) (l : list A) :
  List.concat (map (fun a => List.filter p (h a)) l) = List.filter p (List.concat (map h l)).
Proof.
  induction l as [|a l IH]; [reflexivity|]. simpl. by rewrite IH, List.filter_app.
Qed.

(** fetchEvidenceDetails returns, in story order, every evidence item of
    every character whose ID was asked for; it fails only when the story
    cannot be read *)
Lemma fetchEvidenceDetails_filter (story : option Story.t) (ids : list string) :
  Pipeline.fetchEvidenceDetails story ids =
  option_map (fun st => List.filter (fun ev => bool_decide (Evidence.ID ev ∈ ids))
                          (List.concat (map Character.HoldsEvidence (Story.Characters st))))
    story.
Proof.
  destruct story as [st|]; [|reflexivity]. simpl. f_equal.
  rewrite <- filter_concat_map. f_equal. apply map_ext. intros ch.
  apply List.filter_ext. intros ev. apply allowedMapOf_lookup.
Qed.

Lemma find_head_filter {A} (p : A -> bool) (l : list A) :
  List.find p l = head (List.filter p l).
Proof. induction l as [|x l IH]; simpl; [done|]. by destruct (p x). Qed.

(** fetchLocationDetailsForIDs keeps the story locations whose ID was
    asked for, in story order; fetchLocationDetails for one ID gives the
    first of them *)
Lemma fetchLocationDetailsForIDs_filter (story : option Story.t) (ids : list string)
    (id : string) :
  fetchLocationDetailsForIDs story ids =
    option_map (fun st => List.filter (fun loc => bool_decide (Location.ID loc ∈ ids))
                            (Story.Locations st)) story /\
  Pipeline.fetchLocationDetails story id =
    option_map (fun l => head l) (fetchLocationDetailsForIDs story [id]).
Proof.
  destruct story as [st|]; [|split; reflexivity]. simpl. split.
  - f_equal. apply List.filter_ext. intros loc. apply allowedMapOf_lookup.
  - f_equal. rewrite find_head_filter. f_equal. apply List.filter_ext. intros loc.
    rewrite allowedMapOf_lookup. case_bool_decide as H.
    + apply list_elem_of_singleton in H. by apply String.eqb_eq.
    + apply String.eqb_neq. intros E. apply H. by rewrite list_elem_of_singleton.
Qed.

End FilterFacts.

Section RepoFacts.
Import GoStrings.

Lemma insertRetry_spec (n : nat) :
  forall (ins : list bool) (doc : ConversationDocument.t) (st : Repo.Store),
  Repo.insertRetry n ins doc st =
  if existsb (fun b => b) (firstn n ins)
  then (None, Repo.mk (Repo.conversations st ++ [doc]))
  else (Some "insert failed"%string, st).
Proof.
  induction n as [|n IH]; intros ins doc st; [reflexivity|].
  destruct ins as [|[] rest]; simpl; [|reflexivity|]; rewrite IH; [|reflexivity].
  by rewrite firstn_nil.
Qed.

(** a save either leaves the log as it was or appends exactly the
    document built from its arguments, reveal lists included; when it
    reports an error the log is unchanged *)
Lemma Save_appends_at_most_one (ObjectIDFromHex : string -> bool) (inserts : list bool)
    (st : Repo.Store) (agentID fullContent clientContent role : string) (index : nat)
    (revE revL : list string) :
  let r := Repo.SaveConversationMessageWithVersions ObjectIDFromHex inserts st agentID
             fullContent clientContent role index revE revL in
  (snd r = st \/
   Repo.conversations (snd r) = Repo.conversations st ++
     [ConversationDocument.mk agentID role fullContent clientContent index revE revL]) /\
  (fst r <> None -> snd r = st).
Proof.
  unfold Repo.SaveConversationMessageWithVersions.
  destruct (_ && _); [simpl; auto|]. destruct (negb _); [simpl; auto|].
  rewrite insertRetry_spec. destruct (existsb _ _); simpl; [|auto].
  split; [by right | congruence].
Qed.

(** for a non-blank message and a valid agent ID the save succeeds
    exactly when one of the first three InsertOne attempts succeeds, and
    then the stored document carries the reveal lists given *)
Lemma Save_nonblank_valid (ObjectIDFromHex : string -> bool) (inserts : list bool)
    (st : Repo.Store) (agentID fullContent clientContent role : string) (index : nat)
    (revE revL : list string) :
  String.eqb (TrimSpace fullContent) "" && String.eqb (TrimSpace clientContent) "" = false ->
  ObjectIDFromHex agentID = true ->
  Repo.SaveConversationMessageWithVersions ObjectIDFromHex inserts st agentID
    fullContent clientContent role index revE revL =
  if existsb (fun b => b) (firstn 3 inserts)
  then (None, Repo.mk (Repo.conversations st ++
         [ConversationDocument.mk agentID role fullContent clientContent index revE revL]))
  else (Some "insert failed"%string, st).
Proof.
  intros Hb Hv. unfold Repo.SaveConversationMessageWithVersions.
  rewrite Hb, Hv. cbn [negb]. apply insertRetry_spec.
Qed.

End RepoFacts.

Section TrackingFacts.

Lemma track_app (m : gmap string bool) (l1 l2 : list string) :
  Validate.track m (l1 ++ l2) = Validate.track (Validate.track m l1) l2.
Proof. unfold Validate.track. by rewrite foldl_app. Qed.

(** two tracking steps give the same agent as one step with the
    concatenated lists *)
Lemma updateAgentTracking_compose (a : Agent.t) (e1 l1 e2 l2 : list string) :
  updateAgentTracking (updateAgentTracking a e1 l1) e2 l2 =
  updateAgentTracking a (e1 ++ e2) (l1 ++ l2).
Proof. unfold updateAgentTracking, Agent.setRevealed. simpl. by rewrite !track_app. Qed.

(** only the membership of the lists matters: their order and
    repetitions do not change the agent *)
Lemma updateAgentTracking_members (a : Agent.t) (e e' l l' : list string) :
  (forall x, x ∈ e <-> x ∈ e') -> (forall x, x ∈ l <-> x ∈ l') ->
  updateAgentTracking a e l = updateAgentTracking a e' l'.
Proof.
  intros He Hl. unfold updateAgentTracking. f_equal; apply map_eq; intros x;
    rewrite !lookup_track; do 2 case_decide; naive_solver.
Qed.

(** tracking only adds [true] entries: the listed IDs become present,
    every other entry is left as it was, and the other fields of the
    agent do not change *)
Lemma updateAgentTracking_lookup (a : Agent.t) (e l : list string) (x : string) :
  let a' := updateAgentTracking a e l in
  Agent.RevealedEvidenceIDs a' !! x =
    (if decide (x ∈ e) then Some true else Agent.RevealedEvidenceIDs a !! x) /\
  Agent.RevealedLocationIDs a' !! x =
    (if decide (x ∈ l) then Some true else Agent.RevealedLocationIDs a !! x) /\
  Agent.History a' = Agent.History a /\
  Agent.HoldsEvidenceIDs a' = Agent.HoldsEvidenceIDs a /\
  Agent.KnowsLocationIDs a' = Agent.KnowsLocationIDs a.
Proof. simpl. by rewrite !lookup_track. Qed.

End TrackingFacts.

Section CooperationFacts.
Import GoStrings Cooperation.

Lemma HasPrefix_Contains (s t : string) : HasPrefix s t = true -> Contains s t = true.
Proof. destruct s; simpl; intros ->; reflexivity. Qed.

Lemma Contains_tail (s : string) (c : ascii) (t : string) :
  Contains s (String c t) = true -> Contains s t = true.
Proof.
  induction s as [|d s IH]; [discriminate|].
  change (Contains (String d s) (String c t)) with
    (HasPrefix (String d s) (String c t) || Contains s (String c t)).
  change (Contains (String d s) t) with (HasPrefix (String d s) t || Contains s t).
  rewrite !orb_true_iff. intros [H|H]; right; [|exact (IH H)].
  simpl in H. apply andb_true_iff in H as [_ H]. exact (HasPrefix_Contains _ _ H).
Qed.

Lemma Contains_suffix (s u w : string) :
  Contains s (String.append u w) = true -> Contains s w = true.
Proof.
  induction u as [|c u IH]; [done|]. intros H. apply IH.
  exact (Contains_tail s c _ H).
Qed.

(** the level is HIGH exactly when a high-cooperation keyword occurs,
    LOW exactly when no high and no medium keyword occurs: the list of
    low-cooperation keywords never changes the result *)
Lemma determineCooperationLevel_cases (p : string) :
  (determineCooperationLevel p = "HIGH" <-> existsb (Contains (ToLower p)) highKeywords = true) /\
  (determineCooperationLevel p = "MEDIUM" <->
     existsb (Contains (ToLower p)) highKeywords = false /\
     existsb (Contains (ToLower p)) mediumKeywords = true) /\
  (determineCooperationLevel p = "LOW" <->
     existsb (Contains (ToLower p)) highKeywords = false /\
     existsb (Contains (ToLower p)) mediumKeywords = false).
Proof.
  unfold determineCooperationLevel.
  destruct (existsb (Contains (ToLower p)) highKeywords),
    (existsb (Contains (ToLower p)) mediumKeywords),
    (existsb (Contains (ToLower p)) lowKeywords);
    intuition congruence.
Qed.

(** a medium keyword inside a longer word still counts: "dishonest",
    "unfriendly" or "unhelpful" give MEDIUM unless a high keyword occurs *)
Lemma determineCooperationLevel_negated_keyword (p u w : string) :
  In w mediumKeywords -> Contains (ToLower p) (String.append u w) = true ->
  existsb (Contains (ToLower p)) highKeywords = false ->
  determineCooperationLevel p = "MEDIUM".
Proof.
  intros Hw Hc Hh. unfold determineCooperationLevel. rewrite Hh.
  replace (existsb (Contains (ToLower p)) mediumKeywords) with true; [reflexivity|].
  symmetry. apply existsb_exists. exists w. split; [exact Hw|].
  exact (Contains_suffix _ u w Hc).
Qed.

End CooperationFacts.

Section HandlerExtra.
Import GoStrings Pipeline.

Lemma parseWithRetry_calls (ju : string -> option MessageResponse.t) (env : Env)
    (a : Agent.t) (raw : string) :
  (snd (parseWithRetry ju env a raw) <= 1)%nat.
Proof.
  unfold parseWithRetry. destruct (ju raw); simpl; [lia|].
  destruct (negb _); simpl; [lia|]. destruct (RetryGenerate env) as [t|]; simpl; [|lia].
  destruct (ju t); simpl; lia.
Qed.

Lemma emptyReplyLine_nonblank : String.eqb (TrimSpace emptyReplyLine) "" = false.
Proof. vm_compute. reflexivity. Qed.

(** a successful answer never has a blank reply, comes with exactly two
    saves (the user turn, then the model turn with the reply and the
    reveal lists answered, at the next index) and costs one or two
    GenerateContent calls *)
Lemma handler_success_shape (ju : string -> option MessageResponse.t)
    (ecc : string -> string -> string) (nr : string) (env : Env)
    (req : MessageRequest.t) (resp : MessageResponse.t) :
  outcome (MessageHandler ju ecc nr env req) = Encoded resp ->
  String.eqb (TrimSpace (MessageResponse.Reply resp)) "" = false /\
  (exists um i, saves (MessageHandler ju ecc nr env req) =
     [mkSave um (ecc um "user") "user" i [] [];
      mkSave nr (MessageResponse.Reply resp) "model" (S i)
        (MessageResponse.RevealedEvidences resp) (MessageResponse.RevealedLocations resp)]) /\
  (generatorCalls (MessageHandler ju ecc nr env req) = 1 \/
   generatorCalls (MessageHandler ju ecc nr env req) = 2)%nat.
Proof.
  unfold MessageHandler.
  destruct (GetAgentByID env) as [a|]; [|discriminate].
  destruct (String.eqb (Agent.StoryID a) ""); [discriminate|].
  destruct (augment (StoryDB env) req) as [um|e]; [|discriminate].
  destruct (String.eqb (TrimSpace um) ""); [discriminate|].
  destruct (ClientOK env); simpl; [|discriminate].
  destruct (Generate env) as [raw|]; simpl; [|discriminate].
  pose proof (parseWithRetry_calls ju env
    (Agent.setHistory a (Agent.History a ++ [Content.mk RoleUser um])) raw) as Hk.
  destruct (parseWithRetry _ _ _ raw) as [r k]. simpl in *.
  intros H. injection H as <-. simpl. split; [|split].
  - destruct (String.eqb (TrimSpace (MessageResponse.Reply r)) "") eqn:E;
      [exact emptyReplyLine_nonblank | exact E].
  - exists um, (length (Agent.History a)).
    rewrite !length_app. simpl. repeat f_equal; lia.
  - lia.
Qed.


End HandlerExtra.

Section CompositionFacts.
Import GoStrings Pipeline.

(** a request naming a location: the saved user turn keeps the location
    header in its full content, while its client content is what the bare
    message gives *)
Lemma handler_location_user_save (ju : string -> option MessageResponse.t) (nr : string)
    (env : Env) (req : MessageRequest.t) (a : Agent.t) (loc : Location.t) :
  GetAgentByID env = Some a -> Agent.StoryID a <> EmptyString ->
  MessageRequest.LocationID req <> EmptyString -> MessageRequest.PresentedEvidence req = [] ->
  fetchLocationDetails (StoryDB env) (MessageRequest.LocationID req) = Some (Some loc) ->
  ~ In "]"%char (list_ascii_of_string (Location.LocationName loc)) ->
  ~ In "]"%char (list_ascii_of_string (Location.VisualDescription loc)) ->
  exists rest,
    saves (MessageHandler ju ClientContent.extractClientContent nr env req) =
    mkSave (locationPrefix loc (MessageRequest.Message req))
      (ClientContent.extractClientContent (MessageRequest.Message req) "user")
      "user" (length (Agent.History a)) [] [] :: rest.
Proof.
  intros Ha Hs Hl He Hf Hn Hv.
  assert (Haug : augment (StoryDB env) req = inl (locationPrefix loc (MessageRequest.Message req))).
  { unfold augment. rewrite (eqb_neq_false _ _ Hl), Hf, He. reflexivity. }
  assert (Hnb : TrimSpace (locationPrefix loc (MessageRequest.Message req)) <> EmptyString).
  { apply (TrimSpace_nonblank _ "["%char); [left; reflexivity | reflexivity]. }
  unfold MessageHandler.
  rewrite Ha, (eqb_neq_false _ _ Hs), Haug, (eqb_neq_false _ _ Hnb).
  rewrite (extract_drops_location_prefix loc _ Hn Hv).
  assert (Hi : (length (Agent.History (Agent.setHistory a (Agent.History a ++
                 [Content.mk RoleUser (locationPrefix loc (MessageRequest.Message req))]))) - 1 =
                length (Agent.History a))%nat).
  { cbn [Agent.History Agent.setHistory]. rewrite length_app. simpl. lia. }
  rewrite Hi.
  destruct (ClientOK env); simpl; [|eexists; reflexivity].
  destruct (Generate env) as [raw|]; simpl; [|eexists; reflexivity].
  destruct (parseWithRetry _ _ _ raw). eexists. reflexivity.
Qed.

End CompositionFacts.

Section RegistryFacts.
Import Registry.

(** a successful lookup leaves the agent in the registry: later lookups
    return the same agent without reading the database, whatever it
    holds, and the other entries are untouched *)
Lemma GetAgentByID_caches (docs : string -> option AgentDocument.t)
    (convs : string -> option (list ConversationDocument.t)) (reg reg' : gmap string Agent.t)
    (id : string) (a : Agent.t) :
  GetAgentByID docs convs reg id = (Some a, reg') ->
  reg' !! id = Some a /\
  (forall j, j <> id -> reg' !! j = reg !! j) /\
  (forall docs' convs', GetAgentByID docs' convs' reg' id = (Some a, reg')).
Proof.
  unfold GetAgentByID, Registry.t. destruct (reg !! id) as [b|] eqn:E.
  - intros H; inversion H; subst. split; [exact E|]. split; [done|]. intros. by rewrite E.
  - destruct (Reconstruct.LoadAgentFromDatabase id (docs id) (convs id)) as [l|];
      [|discriminate].
    intros H; inversion H; subst. split; [by rewrite lookup_insert_eq|]. split.
    + intros j Hj. by rewrite lookup_insert_ne.
    + intros. by rewrite lookup_insert_eq.
Qed.

(** DeleteAgent only evicts the in-memory agent: the next lookup of that
    ID answers with what LoadAgentFromDatabase rebuilds from the database;
    an agent spawned with a given ID replaces any agent under that ID *)
Lemma DeleteAgent_reloads (docs : string -> option AgentDocument.t)
    (convs : string -> option (list ConversationDocument.t)) (reg : gmap string Agent.t)
    (id systemPrompt storyContext storyID characterID characterName personality : string)
    (evidenceIDs locationIDs : list string) :
  fst (GetAgentByID docs convs (DeleteAgent reg id) id) =
    Reconstruct.LoadAgentFromDatabase id (docs id) (convs id) /\
    GetAgentByID docs convs (SpawnAgentWithCharacterAndID reg id systemPrompt storyContext
      storyID characterID characterName personality evidenceIDs locationIDs) id =
    (Some (SpawnAgentWithCharacter id systemPrompt storyContext storyID characterID
             characterName personality evidenceIDs locationIDs),
     SpawnAgentWithCharacterAndID reg id systemPrompt storyContext storyID characterID
       characterName personality evidenceIDs locationIDs).
Proof.
  unfold GetAgentByID, DeleteAgent, SpawnAgentWithCharacterAndID, Registry.t. split.
  - rewrite lookup_delete_eq. by destruct (Reconstruct.LoadAgentFromDatabase _ _ _).
  - by rewrite lookup_insert_eq.
Qed.

End RegistryFacts.

(* ================================================================= *)
(** ** Witnesses of the further properties *)
(* ================================================================= *)

Section FurtherWitnesses.
Import GoStrings.

(** the secret lab header put in front of "Hi" *)
Lemma extract_drops_location_prefix_witness :
  ~ In "]"%char (list_ascii_of_string (Location.LocationName Scenario.secretLab)) /\
  ~ In "]"%char (list_ascii_of_string (Location.VisualDescription Scenario.secretLab)) /\
  ClientContent.extractClientContent (Pipeline.locationPrefix Scenario.secretLab "Hi") "user" =
  ClientContent.extractClientContent "Hi" "user".
Proof.
  assert (H1 : ~ In "]"%char (list_ascii_of_string (Location.LocationName Scenario.secretLab)))
    by (apply notin_of_forallb; reflexivity).
  assert (H2 : ~ In "]"%char (list_ascii_of_string (Location.VisualDescription Scenario.secretLab)))
    by (apply notin_of_forallb; reflexivity).
  exact (conj H1 (conj H2 (extract_drops_location_prefix Scenario.secretLab "Hi" H1 H2))).
Defined.

Lemma extract_plain_user_message_witness :
  ~ In "["%char (list_ascii_of_string " Where should we meet? ") /\
  ClientContent.extractClientContent " Where should we meet? " "user" =
  TrimSpace " Where should we meet? ".
Proof.
  assert (H : ~ In "["%char (list_ascii_of_string " Where should we meet? "))
    by (apply notin_of_forallb; reflexivity).
  exact (conj H (extract_plain_user_message _ H)).
Defined.

Lemma extract_keeps_evidence_rule_witness :
  ~ In "["%char (list_ascii_of_string "Look at this.") /\
  ClientContent.extractClientContent
    (String.append "Look at this." (Pipeline.evidenceSuffix [])) "user" =
  TrimSpace (String.append "Look at this." (String.append Pipeline.nl
    (String.append Pipeline.nl (Pipeline.rule40 "=")))).
Proof.
  assert (H : ~ In "["%char (list_ascii_of_string "Look at this."))
    by (apply notin_of_forallb; reflexivity).
  exact (conj H (extract_keeps_evidence_rule _ [] H)).
Defined.

Lemma mapRevealedNamesToIDs_locations_sound_witness :
  In "loc_1" (NameMaps.mapRevealedNamesToIDs [" secret lab"]
                (NameMaps.buildLocationNameMap Scenario.story)) /\
  exists loc name, In loc (Story.Locations Scenario.story) /\ In name [" secret lab"] /\
    Location.ID loc = "loc_1" /\
    ToLower (Location.LocationName loc) = ToLower (TrimSpace name).
Proof.
  assert (H : In "loc_1" (NameMaps.mapRevealedNamesToIDs [" secret lab"]
                            (NameMaps.buildLocationNameMap Scenario.story)))
    by (vm_compute; left; reflexivity).
  exact (conj H (mapRevealedNamesToIDs_locations_sound _ _ _ H)).
Defined.

Lemma location_name_roundtrip_witness :
  In Scenario.secretLab (Story.Locations Scenario.story) /\
  NoDup (map (fun l => ToLower (Location.LocationName l)) (Story.Locations Scenario.story)) /\
  TrimSpace (Location.LocationName Scenario.secretLab) = Location.LocationName Scenario.secretLab /\
  NameMaps.mapRevealedNamesToIDs [Location.LocationName Scenario.secretLab]
    (NameMaps.buildLocationNameMap Scenario.story) = [Location.ID Scenario.secretLab].
Proof.
  assert (H1 : In Scenario.secretLab (Story.Locations Scenario.story)) by (left; reflexivity).
  assert (H2 : NoDup (map (fun l => ToLower (Location.LocationName l))
                          (Story.Locations Scenario.story)))
    by apply NoDup_singleton.
  assert (H3 : TrimSpace (Location.LocationName Scenario.secretLab) =
               Location.LocationName Scenario.secretLab) by (vm_compute; reflexivity).
  exact (conj H1 (conj H2 (conj H3 (location_name_roundtrip _ _ H1 H2 H3)))).
Defined.

(** a turn saved with a valid ID whose first insert fails and the second succeeds *)
Lemma Save_nonblank_valid_witness :
  String.eqb (TrimSpace "Hi") "" && String.eqb (TrimSpace "Hi") "" = false /\
  (fun _ : string => true) "agent_1" = true /\
  Repo.SaveConversationMessageWithVersions (fun _ => true) [false; true] (Repo.mk [])
    "agent_1" "Hi" "Hi" "user" 1 [] ["loc_1"] =
  (None, Repo.mk [ConversationDocument.mk "agent_1" "user" "Hi" "Hi" 1 [] ["loc_1"]]).
Proof.
  assert (H1 : String.eqb (TrimSpace "Hi") "" && String.eqb (TrimSpace "Hi") "" = false)
    by (vm_compute; reflexivity).
  assert (H2 : (fun _ : string => true) "agent_1" = true) by reflexivity.
  exact (conj H1 (conj H2 (Save_nonblank_valid (fun _ => true) [false; true] (Repo.mk [])
    "agent_1" "Hi" "Hi" "user" 1 [] ["loc_1"] H1 H2))).
Defined.

(** a repeated evidence ID changes nothing *)
Lemma updateAgentTracking_members_witness :
  (forall x, x ∈ ["ev_1"; "ev_1"] <-> x ∈ ["ev_1"]) /\
  (forall x : string, x ∈ [] <-> x ∈ []) /\
  updateAgentTracking Scenario.spawned ["ev_1"; "ev_1"] [] =
  updateAgentTracking Scenario.spawned ["ev_1"] [].
Proof.
  assert (H1 : forall x, x ∈ ["ev_1"; "ev_1"] <-> x ∈ ["ev_1"]) by set_solver.
  assert (H2 : forall x : string, x ∈ [] <-> x ∈ []) by tauto.
  exact (conj H1 (conj H2 (updateAgentTracking_members _ _ _ _ _ H1 H2))).
Defined.

(** "Dishonest and cold" reads as honest *)
Lemma determineCooperationLevel_negated_keyword_witness :
  In "honest" Cooperation.mediumKeywords /\
  Contains (ToLower "Dishonest and cold") (String.append "dis" "honest") = true /\
  existsb (Contains (ToLower "Dishonest and cold")) Cooperation.highKeywords = false /\
  Cooperation.determineCooperationLevel "Dishonest and cold" = "MEDIUM".
Proof.
  assert (H1 : In "honest" Cooperation.mediumKeywords) by (right; right; left; reflexivity).
  assert (H2 : Contains (ToLower "Dishonest and cold") (String.append "dis" "honest") = true)
    by (vm_compute; reflexivity).
  assert (H3 : existsb (Contains (ToLower "Dishonest and cold")) Cooperation.highKeywords = false)
    by (vm_compute; reflexivity).
  exact (conj H1 (conj H2 (conj H3
    (determineCooperationLevel_negated_keyword _ _ _ H1 H2 H3)))).
Defined.

(** the scenario turn answers *)
Lemma handler_success_shape_witness :
  let resp := MessageResponse.mk "Meet me at the secret lab tonight." ["ev_1"] ["loc_1"] in
  Pipeline.outcome Scenario.turn = Pipeline.Encoded resp /\
  String.eqb (TrimSpace (MessageResponse.Reply resp)) "" = false /\
  (exists um i, Pipeline.saves Scenario.turn =
     [Pipeline.mkSave um (Scenario.extractClientContent um "user") "user" i [] [];
      Pipeline.mkSave Scenario.naturalResponse (MessageResponse.Reply resp) "model" (S i)
        (MessageResponse.RevealedEvidences resp) (MessageResponse.RevealedLocations resp)]) /\
  (Pipeline.generatorCalls Scenario.turn = 1 \/ Pipeline.generatorCalls Scenario.turn = 2)%nat.
Proof.
  intros resp.
  assert (H : Pipeline.outcome Scenario.turn = Pipeline.Encoded resp)
    by (vm_compute; reflexivity).
  exact (conj H (handler_success_shape Scenario.json_unmarshal Scenario.extractClientContent
    Scenario.naturalResponse Scenario.env Scenario.req resp H)).
Defined.


(** the scenario request sent from the secret lab *)
Lemma handler_location_user_save_witness :
  let req := MessageRequest.mk "agent_1" "Where should we meet?" [] "loc_1" in
  Pipeline.GetAgentByID Scenario.env = Some Scenario.spawned /\
  Agent.StoryID Scenario.spawned <> EmptyString /\
  MessageRequest.LocationID req <> EmptyString /\ MessageRequest.PresentedEvidence req = [] /\
  Pipeline.fetchLocationDetails (Pipeline.StoryDB Scenario.env) (MessageRequest.LocationID req) =
    Some (Some Scenario.secretLab) /\
  exists rest,
    Pipeline.saves (Pipeline.MessageHandler Scenario.json_unmarshal
      ClientContent.extractClientContent Scenario.naturalResponse Scenario.env req) =
    Pipeline.mkSave (Pipeline.locationPrefix Scenario.secretLab (MessageRequest.Message req))
      (ClientContent.extractClientContent (MessageRequest.Message req) "user")
      "user" (length (Agent.History Scenario.spawned)) [] [] :: rest.
Proof.
  intros req.
  assert (H1 : Pipeline.GetAgentByID Scenario.env = Some Scenario.spawned) by reflexivity.
  assert (H2 : Agent.StoryID Scenario.spawned <> EmptyString)
    by (intros E; vm_compute in E; discriminate E).
  assert (H3 : MessageRequest.LocationID req <> EmptyString)
    by (intros E; vm_compute in E; discriminate E).
  assert (H4 : MessageRequest.PresentedEvidence req = []) by reflexivity.
  assert (H5 : Pipeline.fetchLocationDetails (Pipeline.StoryDB Scenario.env)
                 (MessageRequest.LocationID req) = Some (Some Scenario.secretLab))
    by (vm_compute; reflexivity).
  assert (H6 : ~ In "]"%char (list_ascii_of_string (Location.LocationName Scenario.secretLab)))
    by (apply notin_of_forallb; reflexivity).
  assert (H7 : ~ In "]"%char (list_ascii_of_string (Location.VisualDescription Scenario.secretLab)))
    by (apply notin_of_forallb; reflexivity).
  exact (conj H1 (conj H2 (conj H3 (conj H4 (conj H5
    (handler_location_user_save Scenario.json_unmarshal Scenario.naturalResponse Scenario.env
       req Scenario.spawned Scenario.secretLab H1 H2 H3 H4 H5 H6 H7)))))).
Defined.

(** the stored agent is loaded once and then served from the registry *)
Lemma GetAgentByID_caches_witness :
  exists a reg',
    Registry.GetAgentByID (fun _ => Some Scenario.doc) (fun _ => Some Scenario.log) ∅ "agent_1" =
      (Some a, reg') /\
    reg' !! "agent_1" = Some a /\
    (forall j, j <> "agent_1" -> reg' !! j = (∅ : gmap string Agent.t) !! j) /\
    (forall docs' convs', Registry.GetAgentByID docs' convs' reg' "agent_1" = (Some a, reg')).
Proof.
  destruct (Registry.GetAgentByID (fun _ => Some Scenario.doc) (fun _ => Some Scenario.log)
              ∅ "agent_1") as [[a|] reg'] eqn:E.
  - exists a, reg'. exact (conj eq_refl (GetAgentByID_caches _ _ _ _ _ _ E)).
  - vm_compute in E. discriminate E.
Defined.

End FurtherWitnesses.
